(** * Sample_Blog (Flask): the route handlers of [main.py] and the forms of
    [forms.py] over an explicit store and session.

    The handlers are embedded as computations in a state-and-exception monad
    over the request's world: the relational store (three tables), the ORM
    unit of work ([db.session]), the login session and the flash queue.
    Library calls (Flask, Flask-Login, Flask-WTF/WTForms, SQLAlchemy on
    SQLite, Werkzeug) are embedded by what they do on the calls the source
    makes; pure string predicates whose definition is outside the repository
    (the [URL] and [Email] validators, the PBKDF2 digest) are members of the
    class [Externals]. *)

From Stdlib Require Import List String Ascii Bool Arith NArith Lia.
Import ListNotations.
Local Open Scope string_scope.
Local Open Scope list_scope.
Local Open Scope nat_scope.

(** ** Persistence schema ([main.py], classes [User], [BlogPost], [Comment]) *)

Record User := mkUser {
  user_id : nat;
  user_name : string;
  user_email : string;
  user_password : string
}.

Record BlogPost := mkBlogPost {
  post_id : nat;
  title : string;
  subtitle : string;
  date : string;
  body : string;
  img_url : string;
  author_id : option nat
}.

(** [poster_id] and [blog_post_id] are nullable foreign keys: the columns are
    declared without [nullable=False]. *)
Record Comment := mkComment {
  comment_id : nat;
  text : string;
  poster_id : option nat;
  blog_post_id : option nat
}.

(** A table is the list of its rows in rowid order. *)
Record DB := mkDB {
  users : list User;
  blog_posts : list BlogPost;
  comments : list Comment
}.

(** What survives between two requests: the store and the id that
    [login_user] left in the session cookie. *)
Record State := mkState {
  db : DB;
  session : option nat
}.

(** ** Requests and responses *)

Inductive http_method := GET | POST.

(** [form] is the submitted form data; [csrf_valid] says whether the CSRF
    token of the submission verifies; [today] is [date.today()] formatted
    with ["%B %d, %Y"]; [salt] is the value [gen_salt] draws inside
    [generate_password_hash]. *)
Record request := mkRequest {
  method : http_method;
  csrf_valid : bool;
  form : list (string * string);
  today : string;
  salt : string
}.

Inductive endpoint :=
| ep_home
| ep_login
| ep_read_post (id : nat).

(** The templates, with the arguments the handlers pass besides [user] and
    the form. *)
Inductive view :=
| index_html (posts : list BlogPost)
| about_html
| contact_html
| register_html
| login_html
| post_html (post : option BlogPost)
| make_post_html (editing : bool).

Inductive exn :=
| HTTPException (code : nat)
| AttributeError
| UnmappedInstanceError
| IntegrityError
| OverflowError.

Inductive response :=
| Rendered (v : view)
| Redirect (e : endpoint)
| Aborted (code : nat)
| ServerError (e : exn).

(** The error responses the specification names. *)
Definition Forbidden : response := Aborted 403.
Definition NotFound : response := Aborted 404.

(** ** The unit of work *)

Inductive db_op :=
| INSERT_user (name email password : string)
| INSERT_post (title subtitle date body img_url : string) (author : option nat)
| INSERT_comment (text : string) (poster : option nat) (post : option nat)
| UPDATE_post (id : nat) (title subtitle body img_url : string)
| DELETE_post (id : nat).

Record World := mkWorld {
  w_db : DB;
  w_pending : list db_op;
  w_lastrowid : option nat;
  w_session : option nat;
  w_flashes : list string
}.

(** ** The monad of a request *)

Definition M (A : Type) : Type := World -> exn + (A * World).

Definition ret {A} (a : A) : M A := fun w => inr (a, w).

Definition bind {A B} (m : M A) (k : A -> M B) : M B :=
  fun w => match m w with
           | inl e => inl e
           | inr (a, w') => k a w'
           end.

Definition raise {A} (e : exn) : M A := fun _ => inl e.

Declare Scope req_scope.
Delimit Scope req_scope with req.
Notation "x <- c ;; k" := (bind c (fun x => k))
  (at level 61, c at next level, right associativity) : req_scope.
Notation "c ;; k" := (bind c (fun _ => k))
  (at level 61, right associativity) : req_scope.
Local Open Scope req_scope.

Definition get_db : M DB := fun w => inr (w_db w, w).

(** ** Tables *)

Definition max_id (ids : list nat) : nat := fold_right Nat.max 0 ids.

(** SQLite gives a new row of an [INTEGER PRIMARY KEY] table the largest
    rowid in use plus one. *)
Definition next_id (ids : list nat) : nat := S (max_id ids).

Definition get_user (d : DB) (id : nat) : option User :=
  find (fun u => user_id u =? id) (users d).

(** The row of the post table with that key, if there is one. A handler
    does not read the table this way but through [BlogPost_query_get]
    below, which can raise. *)
Definition get_post (d : DB) (id : nat) : option BlogPost :=
  find (fun p => post_id p =? id) (blog_posts d).

(** A key is bound to a query as a SQLite INTEGER, a signed 64-bit number,
    which is also what a rowid is: keys from [2^63] on cannot be bound. *)
Definition sqlite_integer (id : nat) : bool :=
  (N.of_nat id <? 9223372036854775808)%N.

(** Whether [BlogPost.query.get(id)] returns: it does on the key of a row
    (a rowid is a SQLite INTEGER) and on every other key that can be bound. *)
Definition query_get_returns (d : DB) (id : nat) : bool :=
  match get_post d id with
  | Some _ => true
  | None => sqlite_integer id
  end.

Definition user_by_email (d : DB) (email : string) : option User :=
  find (fun u => String.eqb (user_email u) email) (users d).

Definition set_post_fields (t s b i : string) (p : BlogPost) : BlogPost :=
  mkBlogPost (post_id p) t s (date p) b i (author_id p).

Definition option_nat_eqb (a : option nat) (n : nat) : bool :=
  match a with
  | Some m => m =? n
  | None => false
  end.

(** What the flush of [db.session.delete(post)] does to one comment: the
    relationship [BlogPost.comments] is declared without a [cascade]
    argument, so the ORM keeps the row and sets its foreign key to NULL. *)
Definition detach_comment (id : nat) (c : Comment) : Comment :=
  if option_nat_eqb (blog_post_id c) id
  then mkComment (comment_id c) (text c) (poster_id c) None
  else c.

(** The store after the INSERT of a user, of a post and of a comment. *)
Definition db_with_user (d : DB) (name email password : string) : DB :=
  mkDB (users d
        ++ [mkUser (next_id (map user_id (users d))) name email password])
       (blog_posts d) (comments d).

Definition db_with_post (d : DB) (t s dt b i : string) (a : option nat) : DB :=
  mkDB (users d)
       (blog_posts d
        ++ [mkBlogPost (next_id (map post_id (blog_posts d))) t s dt b i a])
       (comments d).

Definition db_with_comment (d : DB) (tx : string) (poster post : option nat)
  : DB :=
  mkDB (users d) (blog_posts d)
       (comments d
        ++ [mkComment (next_id (map comment_id (comments d))) tx poster post]).

(** What the UPDATE of post [id] does to one row. *)
Definition update_row (id : nat) (t s b i : string) (p : BlogPost) : BlogPost :=
  if post_id p =? id then set_post_fields t s b i p else p.

Definition db_with_updated_post (d : DB) (id : nat) (t s b i : string) : DB :=
  mkDB (users d) (map (update_row id t s b i) (blog_posts d)) (comments d).

(** The store after the flush of [db.session.delete(post)]: the comments of
    the post are detached, then the post row is deleted. *)
Definition db_without_post (d : DB) (id : nat) : DB :=
  mkDB (users d)
       (filter (fun p => negb (post_id p =? id)) (blog_posts d))
       (map (detach_comment id) (comments d)).

(** One statement of a flush. The [unique=True] columns ([users.email],
    [blog_posts.title]) are checked by the store; a violation is an
    [IntegrityError]. The result carries the rowid of an INSERT. *)
Definition flush_op (d : DB) (op : db_op) : exn + (DB * option nat) :=
  match op with
  | INSERT_user name email password =>
      if existsb (fun u => String.eqb (user_email u) email) (users d)
      then inl IntegrityError
      else inr (db_with_user d name email password,
                Some (next_id (map user_id (users d))))
  | INSERT_post t s dt b i a =>
      if existsb (fun p => String.eqb (title p) t) (blog_posts d)
      then inl IntegrityError
      else inr (db_with_post d t s dt b i a,
                Some (next_id (map post_id (blog_posts d))))
  | INSERT_comment tx poster post =>
      inr (db_with_comment d tx poster post,
           Some (next_id (map comment_id (comments d))))
  | UPDATE_post id t s b i =>
      if existsb (fun p => negb (post_id p =? id) && String.eqb (title p) t)
                 (blog_posts d)
      then inl IntegrityError
      else inr (db_with_updated_post d id t s b i, None)
  | DELETE_post id => inr (db_without_post d id, None)
  end.

Fixpoint flush (d : DB) (last : option nat) (ops : list db_op)
  : exn + (DB * option nat) :=
  match ops with
  | [] => inr (d, last)
  | op :: ops' =>
      match flush_op d op with
      | inl e => inl e
      | inr (d', Some id) => flush d' (Some id) ops'
      | inr (d', None) => flush d' last ops'
      end
  end.

(** [db.session.add(obj)] and attribute assignment on a loaded object: the
    statement is queued until the commit. *)
Definition db_session_add (op : db_op) : M unit :=
  fun w => inr (tt, mkWorld (w_db w) (w_pending w ++ [op]) (w_lastrowid w)
                            (w_session w) (w_flashes w)).

(** [db.session.delete(obj)]: [None] is not a mapped instance. *)
Definition db_session_delete (p : option BlogPost) : M unit :=
  match p with
  | None => raise UnmappedInstanceError
  | Some p => db_session_add (DELETE_post (post_id p))
  end.

(** [db.session.commit()]: one transaction; it is applied whole or, when a
    statement fails, not at all (the exception leaves the request and the
    world built so far is dropped, see [run]). *)
Definition db_session_commit : M unit :=
  fun w => match flush (w_db w) (w_lastrowid w) (w_pending w) with
           | inl e => inl e
           | inr (d, last) =>
               inr (tt, mkWorld d [] last (w_session w) (w_flashes w))
           end.

(** The primary key of the object added last, as read after the commit
    ([new_user.id]). *)
Definition new_object_id : M nat :=
  fun w => match w_lastrowid w with
           | Some id => inr (id, w)
           | None => inl AttributeError
           end.

(** [BlogPost.query.get(id)], the first statement of [read_post] and, behind
    the gate, of [edit_post] and [delete_post]: the row with that primary
    key or [None]; a key that cannot be bound raises [OverflowError], which
    no handler catches. *)
Definition BlogPost_query_get (id : nat) : M (option BlogPost) :=
  fun w => if query_get_returns (w_db w) id
           then inr (get_post (w_db w) id, w)
           else inl OverflowError.

(** ** Flask and Flask-Login *)

Definition flash (msg : string) : M unit :=
  fun w => inr (tt, mkWorld (w_db w) (w_pending w) (w_lastrowid w)
                            (w_session w) (w_flashes w ++ [msg])).

Definition abort {A} (code : nat) : M A := raise (HTTPException code).

(** [load_user]: [User.query.get(int(user_id))]. *)
Definition load_user (d : DB) (uid : nat) : option User := get_user d uid.

(** [current_user]: the user the session id loads, [None] standing for the
    [AnonymousUserMixin] object Flask-Login supplies otherwise. *)
Definition current_user_of (d : DB) (s : option nat) : option User :=
  match s with
  | Some uid => load_user d uid
  | None => None
  end.

Definition current_user : M (option User) :=
  fun w => inr (current_user_of (w_db w) (w_session w), w).

(** [current_user.is_authenticated] *)
Definition is_authenticated (u : option User) : bool :=
  match u with
  | Some _ => true
  | None => false
  end.

(** [current_user.id]: [AnonymousUserMixin] has no attribute [id]. *)
Definition current_user_id : M nat :=
  u <- current_user ;;
  match u with
  | Some u => ret (user_id u)
  | None => raise AttributeError
  end.

Definition login_user (uid : nat) : M unit :=
  fun w => inr (tt, mkWorld (w_db w) (w_pending w) (w_lastrowid w)
                            (Some uid) (w_flashes w)).

Definition logout_user : M unit :=
  fun w => inr (tt, mkWorld (w_db w) (w_pending w) (w_lastrowid w)
                            None (w_flashes w)).

Definition redirect (e : endpoint) : M response := ret (Redirect e).
Definition render_template (v : view) : M response := ret (Rendered v).

(** One request: the handler runs on the stored state; a response commits
    the world it reached, an exception gives an error response and leaves
    the stored state as it was. *)
Definition run (h : M response) (st : State)
  : response * list string * State :=
  match h (mkWorld (db st) [] None (session st) []) with
  | inr (r, w) => (r, w_flashes w, mkState (w_db w) (w_session w))
  | inl (HTTPException code) => (Aborted code, [], st)
  | inl e => (ServerError e, [], st)
  end.

(** ** Forms ([forms.py]) *)

(** The validators WTForms ships as regular expressions and the digest
    Werkzeug takes from [hashlib]: [hash_internal method salt password] is
    Werkzeug's [_hash_internal], giving the hex digest and the method string
    with the iteration count filled in. *)
Class Externals := {
  URL_valid : string -> bool;
  Email_valid : string -> bool;
  hash_internal : string -> string -> string -> string * string
}.

(** [str.isspace] on one character; characters are code points below 256. *)
Definition isspace (c : ascii) : bool :=
  let n := nat_of_ascii c in
  ((9 <=? n) && (n <=? 13)) || ((28 <=? n) && (n <=? 32))
  || (n =? 133) || (n =? 160).

Fixpoint lstrip (l : list ascii) : list ascii :=
  match l with
  | c :: l' => if isspace c then lstrip l' else l
  | [] => []
  end.

(** [str.strip()] *)
Definition strip (s : string) : string :=
  string_of_list_ascii
    (rev (lstrip (rev (lstrip (list_ascii_of_string s))))).

(** Truth value of a [str]. *)
Definition truthy (s : string) : bool := negb (String.eqb s "").

(** [DataRequired()]: passes when
    [field.data and field.data.strip()] is true. *)
Definition DataRequired (data : string) : bool :=
  truthy data && truthy (strip data).

Fixpoint formdata_get (name : string) (f : list (string * string))
  : option string :=
  match f with
  | [] => None
  | (k, v) :: f' => if String.eqb k name then Some v else formdata_get name f'
  end.

(** [FlaskForm.is_submitted]: the routes with a form accept GET and POST. *)
Definition is_submitted (req : request) : bool :=
  match method req with
  | POST => true
  | GET => false
  end.

(** The [data] of a string field: the submitted value when the request is a
    submission that carries the field, else the value the form was
    constructed with (the empty string when none was given). *)
Definition field_data (req : request) (name default : string) : string :=
  if is_submitted req
  then match formdata_get name (form req) with
       | Some v => v
       | None => default
       end
  else default.

Record CreatePostForm := mkCreatePostForm {
  cp_title : string;
  cp_subtitle : string;
  cp_img_url : string;
  cp_body : string
}.

Record RegisterForm := mkRegisterForm {
  rf_name : string;
  rf_email : string;
  rf_password : string
}.

Record LoginForm := mkLoginForm {
  lf_email : string;
  lf_password : string
}.

Record CommentForm := mkCommentForm {
  cf_comment : string
}.

Definition new_CreatePostForm (req : request)
    (title subtitle body img_url : string) : CreatePostForm :=
  mkCreatePostForm (field_data req "title" title)
                   (field_data req "subtitle" subtitle)
                   (field_data req "img_url" img_url)
                   (field_data req "body" body).

Definition new_RegisterForm (req : request) : RegisterForm :=
  mkRegisterForm (field_data req "name" "") (field_data req "email" "")
                 (field_data req "password" "").

Definition new_LoginForm (req : request) : LoginForm :=
  mkLoginForm (field_data req "email" "") (field_data req "password" "").

Definition new_CommentForm (req : request) : CommentForm :=
  mkCommentForm (field_data req "comment" "").

Section Validation.
Context {E : Externals}.

(** A validator chain stops at the first failure of [DataRequired]. *)
Definition validate_CreatePostForm (f : CreatePostForm) : bool :=
  DataRequired (cp_title f) && DataRequired (cp_subtitle f)
  && (DataRequired (cp_img_url f) && URL_valid (cp_img_url f))
  && DataRequired (cp_body f).

Definition validate_RegisterForm (f : RegisterForm) : bool :=
  DataRequired (rf_name f)
  && (DataRequired (rf_email f) && Email_valid (rf_email f))
  && DataRequired (rf_password f).

Definition validate_LoginForm (f : LoginForm) : bool :=
  (DataRequired (lf_email f) && Email_valid (lf_email f))
  && DataRequired (lf_password f).

Definition validate_CommentForm (f : CommentForm) : bool :=
  DataRequired (cf_comment f).

(** [form.validate_on_submit()]: [is_submitted() and validate()], where
    [validate] of a [FlaskForm] checks the CSRF token with the fields. *)
Definition validate_on_submit (req : request) (fields_valid : bool) : bool :=
  is_submitted req && (csrf_valid req && fields_valid).

(** ** Werkzeug password hashes *)

(** The text before the first ["$"] and, when there is one, the text after. *)
Fixpoint split_dollar (s : string) : string * option string :=
  match s with
  | EmptyString => (EmptyString, None)
  | String c s' =>
      if Ascii.eqb c "$"%char then (EmptyString, Some s')
      else let '(a, r) := split_dollar s' in (String c a, r)
  end.

(** [generate_password_hash(password, method="pbkdf2:sha256", salt_length=8)]
    with [salt] the salt drawn. *)
Definition generate_password_hash (password salt : string) : string :=
  let '(h, actual_method) := hash_internal "pbkdf2:sha256" salt password in
  String.append actual_method
    (String.append "$" (String.append salt (String.append "$" h))).

(** [check_password_hash]: a hash with fewer than two ["$"] is refused;
    otherwise [pwhash.split("$", 2)] gives method, salt and digest. *)
Definition check_password_hash (pwhash password : string) : bool :=
  match split_dollar pwhash with
  | (method, Some rest) =>
      match split_dollar rest with
      | (salt, Some hashval) =>
          String.eqb (fst (hash_internal method salt password)) hashval
      | (_, None) => false
      end
  | (_, None) => false
  end.

(** ** Route handlers ([main.py]) *)

Definition admin_only (f : M response) : M response :=
  id <- current_user_id ;;
  if negb (id =? 1) then abort 403 else f.

Definition home : M response :=
  d <- get_db ;;
  render_template (index_html (blog_posts d)).

Definition about : M response := render_template about_html.

Definition contact : M response := render_template contact_html.

Definition register (req : request) : M response :=
  let register_form := new_RegisterForm req in
  if validate_on_submit req (validate_RegisterForm register_form) then
    d <- get_db ;;
    let user_exists := user_by_email d (rf_email register_form) in
    match user_exists with
    | Some _ =>
        flash "A user with this Email-Id already exists. Try Logging In instead!" ;;
        redirect ep_login
    | None =>
        let hash_salted_password :=
          generate_password_hash (rf_password register_form) (salt req) in
        db_session_add (INSERT_user (rf_name register_form)
                                    (rf_email register_form)
                                    hash_salted_password) ;;
        db_session_commit ;;
        new_user <- new_object_id ;;
        login_user new_user ;;
        redirect ep_home
    end
  else render_template register_html.

Definition login (req : request) : M response :=
  let login_form := new_LoginForm req in
  if validate_on_submit req (validate_LoginForm login_form) then
    d <- get_db ;;
    match user_by_email d (lf_email login_form) with
    | Some user =>
        if check_password_hash (user_password user) (lf_password login_form)
        then login_user (user_id user) ;; redirect ep_home
        else flash "Incorrect Password. Try Again!" ;; redirect ep_login
    | None =>
        flash "This Email-Id does not exist. Try Again or Register!" ;;
        redirect ep_login
    end
  else render_template login_html.

Definition logout : M response :=
  logout_user ;;
  redirect ep_home.

Definition read_post (req : request) (id : nat) : M response :=
  clicked_post <- BlogPost_query_get id ;;
  let comment_form := new_CommentForm req in
  if validate_on_submit req (validate_CommentForm comment_form) then
    u <- current_user ;;
    if is_authenticated u then
      db_session_add (INSERT_comment (cf_comment comment_form)
                                     (option_map user_id u)
                                     (option_map post_id clicked_post)) ;;
      db_session_commit ;;
      render_template (post_html clicked_post)
    else
      flash "You must be logged in to comment on a post!" ;;
      redirect ep_login
  else render_template (post_html clicked_post).

Definition create_post (req : request) : M response :=
  admin_only (
    let create_post_form := new_CreatePostForm req "" "" "" "" in
    if validate_on_submit req (validate_CreatePostForm create_post_form) then
      u <- current_user ;;
      db_session_add (INSERT_post (cp_title create_post_form)
                                  (cp_subtitle create_post_form)
                                  (today req)
                                  (cp_body create_post_form)
                                  (cp_img_url create_post_form)
                                  (option_map user_id u)) ;;
      db_session_commit ;;
      redirect ep_home
    else render_template (make_post_html false)).

(** [post_to_edit.title] on [None] is an [AttributeError]. *)
Definition edit_post (req : request) (id : nat) : M response :=
  admin_only (
    post_to_edit <- BlogPost_query_get id ;;
    match post_to_edit with
    | None => raise AttributeError
    | Some post_to_edit =>
        let edit_post_form :=
          new_CreatePostForm req (title post_to_edit) (subtitle post_to_edit)
                             (body post_to_edit) (img_url post_to_edit) in
        if validate_on_submit req (validate_CreatePostForm edit_post_form) then
          db_session_add (UPDATE_post (post_id post_to_edit)
                                      (cp_title edit_post_form)
                                      (cp_subtitle edit_post_form)
                                      (cp_body edit_post_form)
                                      (cp_img_url edit_post_form)) ;;
          db_session_commit ;;
          redirect (ep_read_post (post_id post_to_edit))
        else render_template (make_post_html true)
    end).

Definition delete_post (id : nat) : M response :=
  admin_only (
    post_to_delete <- BlogPost_query_get id ;;
    db_session_delete post_to_delete ;;
    db_session_commit ;;
    redirect ep_home).

(** The admin-only routes. *)
Inductive admin_route :=
| new_post_route
| edit_post_route (id : nat)
| delete_route (id : nat).

Definition admin_handler (req : request) (r : admin_route) : M response :=
  match r with
  | new_post_route => create_post req
  | edit_post_route id => edit_post req id
  | delete_route id => delete_post id
  end.

End Validation.

(** ** Vocabulary of the statements *)

(** The principal of a stored state. *)
Definition principal (st : State) : option User :=
  current_user_of (db st) (session st).

(** The designated administrator: the logged-in user whose id is 1. *)
Definition is_admin (st : State) : Prop :=
  exists u, principal st = Some u /\ user_id u = 1.

(** The validated submission of the comment form. *)
Definition comment_submitted (req : request) : bool :=
  validate_on_submit req (validate_CommentForm (new_CommentForm req)).

Definition login_required_flash : string :=
  "You must be logged in to comment on a post!".

Definition duplicate_email_flash : string :=
  "A user with this Email-Id already exists. Try Logging In instead!".

Definition incorrect_password_flash : string :=
  "Incorrect Password. Try Again!".

Definition unknown_email_flash : string :=
  "This Email-Id does not exist. Try Again or Register!".

Fixpoint no_dollar (s : string) : bool :=
  match s with
  | EmptyString => true
  | String c s' => negb (Ascii.eqb c "$"%char) && no_dollar s'
  end.

Section Submissions.
Context {E : Externals}.

(** The validated submission of [create_post]. *)
Definition create_post_submitted (req : request) : bool :=
  validate_on_submit req
    (validate_CreatePostForm (new_CreatePostForm req "" "" "" "")).

(** The validated submissions of the two account forms. *)
Definition register_submitted (req : request) : bool :=
  validate_on_submit req (validate_RegisterForm (new_RegisterForm req)).

Definition login_submitted (req : request) : bool :=
  validate_on_submit req (validate_LoginForm (new_LoginForm req)).

(** What the account lemmas below ask of the digest and of the salt drawn:
    the salt and the method string written into the hash have no ["$"]
    (Werkzeug draws salts from letters and digits and writes the method as
    [pbkdf2:sha256:<iterations>]), and hashing under the method string
    written into the hash gives the digest again. *)
Definition hash_format_ok (password salt : string) : Prop :=
  let '(h, actual_method) := hash_internal "pbkdf2:sha256" salt password in
  no_dollar actual_method = true
  /\ no_dollar salt = true
  /\ fst (hash_internal actual_method salt password) = h.

End Submissions.

(** ** The URL map ([@app.route]) *)

Inductive route :=
| route_home
| route_about
| route_contact
| route_register
| route_login
| route_logout
| route_read_post (id : nat)
| route_create_post
| route_edit_post (id : nat)
| route_delete_post (id : nat).

(** The routes declared with [methods=["GET", "POST"]]; a route declared
    without [methods] takes GET only. *)
Definition accepts_post (r : route) : bool :=
  match r with
  | route_register | route_login | route_read_post _
  | route_create_post | route_edit_post _ => true
  | route_home | route_about | route_contact | route_logout
  | route_delete_post _ => false
  end.

Section Routing.
Context {E : Externals}.

Definition view_function (req : request) (r : route) : M response :=
  match r with
  | route_home => home
  | route_about => about
  | route_contact => contact
  | route_register => register req
  | route_login => login req
  | route_logout => logout
  | route_read_post id => read_post req id
  | route_create_post => create_post req
  | route_edit_post id => edit_post req id
  | route_delete_post id => delete_post id
  end.

(** Flask answers a method the route does not take with 405, before the
    view function runs. *)
Definition dispatch (req : request) (r : route) : M response :=
  match method req with
  | GET => view_function req r
  | POST => if accepts_post r then view_function req r else abort 405
  end.

Definition serve (r : route) (req : request) (st : State)
  : response * list string * State :=
  run (dispatch req r) st.

End Routing.

(** ** State changes and invariants *)

(** The state changes a request can make. *)
Inductive step (st : State) : State -> Prop :=
| step_stay : step st st
| step_logout : step st (mkState (db st) None)
| step_login (u : User) :
    In u (users (db st)) ->
    step st (mkState (db st) (Some (user_id u)))
| step_register (name email password : string) :
    user_by_email (db st) email = None ->
    step st (mkState (db_with_user (db st) name email password)
                     (Some (next_id (map user_id (users (db st))))))
| step_comment (u : User) (tx : string) (id : nat) :
    principal st = Some u ->
    step st (mkState (db_with_comment (db st) tx (Some (user_id u))
                        (option_map post_id (get_post (db st) id)))
                     (session st))
| step_create (t s dt b i : string) :
    is_admin st ->
    (forall p, In p (blog_posts (db st)) -> title p <> t) ->
    step st (mkState (db_with_post (db st) t s dt b i (Some 1)) (session st))
| step_update (p : BlogPost) (id : nat) (t s b i : string) :
    is_admin st ->
    get_post (db st) id = Some p ->
    (forall q, In q (blog_posts (db st)) -> post_id q <> id -> title q <> t) ->
    step st (mkState (db_with_updated_post (db st) id t s b i) (session st))
| step_delete (p : BlogPost) (id : nat) :
    is_admin st ->
    get_post (db st) id = Some p ->
    step st (mkState (db_without_post (db st) id) (session st)).

(** Primary keys and the [unique=True] columns have no duplicates. *)
Definition keys_unique (d : DB) : Prop :=
  NoDup (map user_id (users d))
  /\ NoDup (map user_email (users d))
  /\ NoDup (map post_id (blog_posts d))
  /\ NoDup (map title (blog_posts d))
  /\ NoDup (map comment_id (comments d)).

Definition user_ids (d : DB) : list nat := map user_id (users d).
Definition post_ids (d : DB) : list nat := map post_id (blog_posts d).

(** No reference dangles: every comment has a stored poster and a stored
    post or none, every post a stored author, and the session, when there is
    one, is that of a stored user. *)
Definition references_valid (st : State) : Prop :=
  (forall c, In c (comments (db st)) ->
             exists uid, poster_id c = Some uid /\ In uid (user_ids (db st)))
  /\ (forall c pid, In c (comments (db st)) -> blog_post_id c = Some pid ->
                    In pid (post_ids (db st)))
  /\ (forall p, In p (blog_posts (db st)) ->
                exists uid, author_id p = Some uid /\ In uid (user_ids (db st)))
  /\ (forall uid, session st = Some uid -> In uid (user_ids (db st))).

(** ** A sample store and sample requests *)

(** A store with the administrator, one other user, one post and two
    comments on it. *)
Definition sample_admin : User :=
  mkUser 1 "Admin" "admin@x.com"
         "pbkdf2:sha256:260000$saltsalt$saltsalt:admin-pw".

Definition sample_alice : User :=
  mkUser 2 "Alice" "a@x.com" "pbkdf2:sha256:260000$saltsalt$saltsalt:pw123".

Definition sample_post : BlogPost :=
  mkBlogPost 1 "Hello" "A first post" "April 05, 2025" "<p>Hi</p>"
             "https://example.com/a.png" (Some 1).

Definition sample_db : DB :=
  mkDB [sample_admin; sample_alice] [sample_post]
       [mkComment 1 "nice" (Some 2) (Some 1);
        mkComment 2 "thanks" (Some 1) (Some 1)].

Definition sample_admin_state : State := mkState sample_db (Some 1).
Definition sample_alice_state : State := mkState sample_db (Some 2).
Definition sample_anonymous_state : State := mkState sample_db None.

(** A stand-in for the external functions, to evaluate the handlers on
    concrete requests. It accepts fewer inputs than the validators do: the
    URLs on one line that start with [https://example.com/], and the e-mail
    addresses made of lower-case letters and digits followed by [@x.com];
    the digest is a marked copy of salt and password. *)
Definition is_lower_alnum (c : ascii) : bool :=
  let n := nat_of_ascii c in
  ((97 <=? n) && (n <=? 122)) || ((48 <=? n) && (n <=? 57)).

Fixpoint sample_email_valid (s : string) : bool :=
  match s with
  | EmptyString => false
  | String c s' =>
      is_lower_alnum c && (String.eqb s' "@x.com" || sample_email_valid s')
  end.

Definition sample_url_valid (s : string) : bool :=
  String.prefix "https://example.com/" s
  && forallb (fun c => negb (Ascii.eqb c "010"%char)) (list_ascii_of_string s).

Definition sample_externals : Externals :=
  {| URL_valid := sample_url_valid;
     Email_valid := sample_email_valid;
     hash_internal := fun method salt password =>
       (String.append salt (String.append ":" password),
        "pbkdf2:sha256:260000") |}.

Definition sample_new_post_request : request :=
  mkRequest POST true
    [("title", "Hello"); ("subtitle", "Again"); ("img_url", "https://example.com/y.png");
     ("body", "<p>text</p>")]
    "April 06, 2025" "saltsalt".

Definition sample_edit_request : request :=
  mkRequest POST true
    [("title", "Hello again"); ("subtitle", "Edited");
     ("img_url", "https://example.com/y.png"); ("body", "<p>new text</p>")]
    "April 07, 2025" "saltsalt".

Definition sample_edited_state : State :=
  mkState
    (mkDB [sample_admin; sample_alice]
          [mkBlogPost 1 "Hello again" "Edited" "April 05, 2025"
                      "<p>new text</p>" "https://example.com/y.png" (Some 1)]
          (comments sample_db))
    (Some 1).

Definition sample_comment_request (tx : string) : request :=
  mkRequest POST true [("comment", tx)] "April 06, 2025" "saltsalt".

Definition sample_register_request : request :=
  mkRequest POST true
    [("name", "Alice again"); ("email", "a@x.com"); ("password", "other")]
    "April 06, 2025" "saltsalt".

Definition sample_new_register_request : request :=
  mkRequest POST true
    [("name", "Bob"); ("email", "b@x.com"); ("password", "pw456")]
    "April 06, 2025" "saltsalt".

Definition sample_bob : User :=
  mkUser 3 "Bob" "b@x.com" "pbkdf2:sha256:260000$saltsalt$saltsalt:pw456".

Definition sample_db_with_bob : DB :=
  mkDB [sample_admin; sample_alice; sample_bob] (blog_posts sample_db)
       (comments sample_db).

Definition sample_bob_state : State := mkState sample_db_with_bob (Some 3).

Definition sample_anonymous_state_with_bob : State :=
  mkState sample_db_with_bob None.

Definition sample_blank_name_register_request : request :=
  mkRequest POST true
    [("name", " "); ("email", "a@x.com"); ("password", "other")]
    "April 06, 2025" "saltsalt".

Definition sample_login_request (email password : string) : request :=
  mkRequest POST true [("email", email); ("password", password)]
    "April 06, 2025" "saltsalt".

(** An empty store, and a store with a second post. *)
Definition sample_empty_state : State := mkState (mkDB [] [] []) None.

Definition sample_second_post : BlogPost :=
  mkBlogPost 2 "World" "A second post" "April 06, 2025" "<p>Hey</p>"
             "https://example.com/b.png" (Some 1).

Definition sample_two_posts_state : State :=
  mkState (mkDB [sample_admin; sample_alice] [sample_post; sample_second_post]
                (comments sample_db))
          (Some 1).

Definition sample_fresh_post_request : request :=
  mkRequest POST true
    [("title", "World"); ("subtitle", "A second post");
     ("img_url", "https://example.com/b.png"); ("body", "<p>Hey</p>")]
    "April 06, 2025" "saltsalt".

(** An edit form that changes the subtitle only, and one that takes the
    title of the second post. *)
Definition sample_subtitle_edit_request : request :=
  mkRequest POST true [("subtitle", "Edited")] "April 07, 2025" "saltsalt".

Definition sample_conflicting_edit_request : request :=
  mkRequest POST true [("title", "World")] "April 07, 2025" "saltsalt".

Definition sample_blank_title_request : request :=
  mkRequest POST true
    [("title", "  "); ("subtitle", "Again"); ("img_url", "https://example.com/y.png");
     ("body", "<p>text</p>")]
    "April 06, 2025" "saltsalt".

Definition sample_bad_email_request : request :=
  mkRequest POST true
    [("name", "Carol"); ("email", "carol"); ("password", "pw789")]
    "April 06, 2025" "saltsalt".

(** The first post id that cannot be bound as a SQLite INTEGER: [2^63]. *)
Definition sample_huge_id : nat := N.to_nat 9223372036854775808.

Definition sample_get_request : request :=
  mkRequest GET false [] "April 06, 2025" "saltsalt".

(** ** Reasoning about handlers *)

Ltac unfold_handler :=
  unfold run, admin_handler, create_post, edit_post, delete_post, read_post,
    register, login, logout, home, admin_only, current_user_id, current_user,
    BlogPost_query_get, db_session_delete, db_session_add, db_session_commit,
    new_object_id,
    login_user, logout_user, flash, abort, raise, redirect, render_template,
    get_db, bind, ret in *;
  cbn [w_db w_pending w_lastrowid w_session w_flashes db session app] in *.

Lemma find_some_eqb {A} (f : A -> bool) (l : list A) (x : A) :
  In x l -> f x = true -> exists y, find f l = Some y.
Proof.
  induction l as [|a l IH]; simpl; [tauto|].
  intros [->|Hin] Hf.
  - rewrite Hf. eauto.
  - destruct (f a); eauto.
Qed.

Lemma find_none_existsb {A} (f : A -> bool) (l : list A) :
  find f l = None -> existsb f l = false.
Proof.
  induction l as [|a l IH]; simpl; [reflexivity|].
  destruct (f a); [discriminate|auto].
Qed.

Lemma get_post_id (d : DB) (id : nat) (p : BlogPost) :
  get_post d id = Some p -> post_id p = id.
Proof.
  unfold get_post. intros Hf. apply find_some in Hf.
  apply Nat.eqb_eq. tauto.
Qed.

(** The gate as a decorator. *)

Lemma admin_only_run (f : M response) (st : State) :
  run (admin_only f) st
  = match principal st with
    | None => (ServerError AttributeError, [], st)
    | Some u => if user_id u =? 1 then run f st else (Forbidden, [], st)
    end.
Proof.
  unfold principal, run, admin_only, current_user_id, current_user, bind,
    ret, raise, abort.
  cbn [w_db w_session].
  destruct (current_user_of (db st) (session st)) as [u|]; [|reflexivity].
  destruct (user_id u =? 1); reflexivity.
Qed.

Lemma admin_only_run_admin (f : M response) (st : State) :
  is_admin st -> run (admin_only f) st = run f st.
Proof.
  intros (u & Hu & Hid). rewrite admin_only_run, Hu, Hid. reflexivity.
Qed.

Lemma is_admin_dec (st : State) : {is_admin st} + {~ is_admin st}.
Proof.
  unfold is_admin.
  destruct (principal st) as [u|].
  - destruct (Nat.eq_dec (user_id u) 1) as [Hid|Hid].
    + left. exists u. auto.
    + right. intros (v & Hv & Hv1). congruence.
  - right. intros (v & Hv & _). discriminate.
Qed.

Lemma admin_only_refused (f : M response) (st : State) :
  ~ is_admin st ->
  run (admin_only f) st = (ServerError AttributeError, [], st)
  \/ run (admin_only f) st = (Forbidden, [], st).
Proof.
  intros Hn. rewrite admin_only_run.
  destruct (principal st) as [u|] eqn:Hu; [|left; reflexivity].
  destruct (user_id u =? 1) eqn:Hid; [|right; reflexivity].
  destruct Hn. exists u. split; [assumption|].
  apply Nat.eqb_eq. assumption.
Qed.

Lemma sqlite_integer_returns (d : DB) (id : nat) :
  sqlite_integer id = true -> query_get_returns d id = true.
Proof.
  unfold query_get_returns. intros ->. destruct (get_post d id); reflexivity.
Qed.

Lemma query_get_returns_found (d : DB) (id : nat) (p : BlogPost) :
  get_post d id = Some p -> query_get_returns d id = true.
Proof. unfold query_get_returns. intros ->. reflexivity. Qed.

Lemma query_get_returns_missing (d : DB) (id : nat) :
  get_post d id = None -> query_get_returns d id = sqlite_integer id.
Proof. unfold query_get_returns. intros ->. reflexivity. Qed.

Section Gate.
Context {E : Externals}.

(** X1: an authenticated user other than the administrator is refused by the
    gate of every admin-only route, and nothing changes. *)
Lemma admin_only_forbidden (req : request) (r : admin_route) (st : State)
    (u : User) :
  principal st = Some u -> user_id u <> 1 ->
  run (admin_handler req r) st = (Forbidden, [], st).
Proof.
  unfold principal. intros Hu Hid.
  apply Nat.eqb_neq in Hid.
  destruct r; unfold_handler; rewrite Hu; cbn; rewrite Hid; reflexivity.
Qed.

(** C2, at the Anonymous principal: a request to any admin-only route by a
    visitor with no session does not get the Forbidden response; reading
    [current_user.id] raises [AttributeError] in the gate, so the response
    is a server error. The stored state is unchanged and nothing is
    flashed. *)
Theorem admin_only_anonymous_server_error (req : request) (r : admin_route)
    (d : DB) :
  run (admin_handler req r) (mkState d None)
    = (ServerError AttributeError, [], mkState d None)
  /\ ServerError AttributeError <> Forbidden.
Proof.
  split; [destruct r; reflexivity | discriminate].
Qed.

End Gate.

(** ** Deleting a post *)

Lemma detach_comment_id (id : nat) (c : Comment) :
  comment_id (detach_comment id c) = comment_id c.
Proof. unfold detach_comment. destruct (option_nat_eqb _ _); reflexivity. Qed.

Lemma detach_comment_text (id : nat) (c : Comment) :
  text (detach_comment id c) = text c
  /\ poster_id (detach_comment id c) = poster_id c.
Proof. unfold detach_comment. destruct (option_nat_eqb _ _); auto. Qed.

Lemma detach_comment_unlinked (id : nat) (c : Comment) :
  blog_post_id (detach_comment id c) <> Some id.
Proof.
  unfold detach_comment.
  destruct (option_nat_eqb (blog_post_id c) id) eqn:Heq; simpl.
  - discriminate.
  - intros Hc. rewrite Hc in Heq. simpl in Heq.
    rewrite Nat.eqb_refl in Heq. discriminate.
Qed.

Lemma find_filter_negb {A} (f : A -> bool) (l : list A) :
  find f (filter (fun x => negb (f x)) l) = None.
Proof.
  induction l as [|a l IH]; simpl; [reflexivity|].
  destruct (f a) eqn:Hf; simpl; [assumption|]. rewrite Hf. assumption.
Qed.

Lemma delete_post_run (st : State) (id : nat) (p : BlogPost) :
  is_admin st -> get_post (db st) id = Some p ->
  run (delete_post id) st
    = (Redirect ep_home, [], mkState (db_without_post (db st) id) (session st)).
Proof.
  intros (u & Hu & Hid) Hp. unfold principal in Hu.
  pose proof (get_post_id _ _ _ Hp) as Hpid.
  unfold_handler. rewrite Hu. cbn. rewrite Hid. cbn.
  rewrite (query_get_returns_found _ _ _ Hp), Hp. cbn. rewrite Hpid.
  reflexivity.
Qed.

(** C1, as amended: when the administrator deletes a stored post, the post
    row is removed and, in the same commit, every comment that referenced it
    has its post reference set to null; the comment rows themselves are kept
    with their id, text and poster, so afterwards no comment references the
    deleted id. Users and the session are untouched. *)
Theorem delete_post_detaches_comments (st : State) (id : nat) (p : BlogPost) :
  is_admin st -> get_post (db st) id = Some p ->
  exists st',
    run (delete_post id) st = (Redirect ep_home, [], st')
    /\ get_post (db st') id = None
    /\ (forall q, In q (blog_posts (db st)) -> post_id q <> id ->
                  In q (blog_posts (db st')))
    /\ (forall c, In c (comments (db st')) -> blog_post_id c <> Some id)
    /\ comments (db st') = map (detach_comment id) (comments (db st))
    /\ map comment_id (comments (db st')) = map comment_id (comments (db st))
    /\ map text (comments (db st')) = map text (comments (db st))
    /\ map poster_id (comments (db st')) = map poster_id (comments (db st))
    /\ users (db st') = users (db st)
    /\ session st' = session st.
Proof.
  intros Ha Hp.
  exists (mkState (db_without_post (db st) id) (session st)).
  split; [exact (delete_post_run st id p Ha Hp)|].
  cbn [db session db_without_post users blog_posts comments].
  repeat split.
  - unfold get_post. cbn [blog_posts]. apply find_filter_negb.
  - intros q Hq Hne. apply filter_In. split; [assumption|].
    apply Bool.negb_true_iff. apply Nat.eqb_neq. assumption.
  - intros c Hc. apply in_map_iff in Hc. destruct Hc as (c0 & <- & _).
    apply detach_comment_unlinked.
  - rewrite map_map. apply map_ext. apply detach_comment_id.
  - rewrite map_map. apply map_ext. intros c. apply detach_comment_text.
  - rewrite map_map. apply map_ext. intros c. apply detach_comment_text.
Qed.

Lemma sample_admin_is_admin : is_admin sample_admin_state.
Proof. exists sample_admin. split; reflexivity. Defined.

Lemma delete_post_detaches_comments_witness :
  exists st',
    run (delete_post 1) sample_admin_state = (Redirect ep_home, [], st')
    /\ get_post (db st') 1 = None
    /\ (forall q, In q (blog_posts (db sample_admin_state)) ->
                  post_id q <> 1 -> In q (blog_posts (db st')))
    /\ (forall c, In c (comments (db st')) -> blog_post_id c <> Some 1)
    /\ comments (db st')
         = map (detach_comment 1) (comments (db sample_admin_state))
    /\ map comment_id (comments (db st'))
         = map comment_id (comments (db sample_admin_state))
    /\ map text (comments (db st'))
         = map text (comments (db sample_admin_state))
    /\ map poster_id (comments (db st'))
         = map poster_id (comments (db sample_admin_state))
    /\ users (db st') = users (db sample_admin_state)
    /\ session st' = session sample_admin_state.
Proof.
  apply (delete_post_detaches_comments sample_admin_state 1 sample_post).
  - exact sample_admin_is_admin.
  - reflexivity.
Defined.

(** C1, as stated, fails: after the administrator deletes post 1 of the
    sample store, the two comments that referenced it are still rows of the
    comment table (with a null post reference). *)
Lemma delete_post_keeps_comment_rows :
  get_post (db sample_admin_state) 1 = Some sample_post
  /\ In (mkComment 1 "nice" (Some 2) (Some 1))
        (comments (db sample_admin_state))
  /\ snd (run (delete_post 1) sample_admin_state)
     = mkState (mkDB [sample_admin; sample_alice] []
                     [mkComment 1 "nice" (Some 2) None;
                      mkComment 2 "thanks" (Some 1) None])
               (Some 1)
  /\ ~ (forall c, In c (comments (db sample_admin_state)) ->
                  blog_post_id c = Some 1 ->
                  ~ exists c', In c' (comments
                                 (db (snd (run (delete_post 1)
                                               sample_admin_state))))
                               /\ comment_id c' = comment_id c).
Proof.
  repeat split.
  - left. reflexivity.
  - intros Hall.
    apply (Hall (mkComment 1 "nice" (Some 2) (Some 1))).
    + left. reflexivity.
    + reflexivity.
    + exists (mkComment 1 "nice" (Some 2) None). split; [left|]; reflexivity.
Qed.

(** ** Creating a post *)

Section Posts.
Context {E : Externals}.

(** C3, on the code: when the administrator submits a valid new post whose
    title is the title of a stored post, the commit raises [IntegrityError]
    on the unique title column and the handler does not catch it: the
    response is a server error, with no flash message and no redirect. No
    row is created: the stored state is unchanged. *)
Theorem create_post_duplicate_title_server_error (req : request) (st : State)
    (p : BlogPost) :
  is_admin st -> create_post_submitted req = true ->
  In p (blog_posts (db st)) -> title p = field_data req "title" "" ->
  run (create_post req) st = (ServerError IntegrityError, [], st).
Proof.
  intros (u & Hu & Hid) Hv Hin Ht. unfold principal in Hu.
  unfold create_post_submitted in Hv.
  assert (Hex : existsb (fun q => String.eqb (title q)
                                    (field_data req "title" ""))
                        (blog_posts (db st)) = true).
  { apply existsb_exists. exists p. split; [assumption|].
    apply String.eqb_eq. assumption. }
  unfold_handler. rewrite Hu. cbn. rewrite Hid. cbn.
  rewrite Hv. cbn.
  rewrite Hex. reflexivity.
Qed.

End Posts.

Lemma create_post_duplicate_title_witness :
  run (create_post (E := sample_externals) sample_new_post_request)
      sample_admin_state
  = (ServerError IntegrityError, [], sample_admin_state).
Proof.
  apply (create_post_duplicate_title_server_error (E := sample_externals)
           sample_new_post_request sample_admin_state sample_post).
  - exact sample_admin_is_admin.
  - reflexivity.
  - left. reflexivity.
  - reflexivity.
Defined.

(** ** Editing a post *)

Lemma update_row_id (id : nat) (t s b i : string) (p : BlogPost) :
  post_id (update_row id t s b i p) = post_id p.
Proof. unfold update_row. destruct (post_id p =? id); reflexivity. Qed.

Lemma update_row_other (id : nat) (t s b i : string) (p : BlogPost) :
  post_id p <> id -> update_row id t s b i p = p.
Proof.
  intros Hne. unfold update_row.
  apply Nat.eqb_neq in Hne. rewrite Hne. reflexivity.
Qed.

Lemma find_map_same_key (h : BlogPost -> BlogPost) (k : nat)
    (l : list BlogPost) :
  (forall p, post_id (h p) = post_id p) ->
  find (fun p => post_id p =? k) (map h l)
    = option_map h (find (fun p => post_id p =? k) l).
Proof.
  intros Hh. induction l as [|a l IH]; simpl; [reflexivity|].
  rewrite Hh. destruct (post_id a =? k); [reflexivity|assumption].
Qed.

Section Edit.
Context {E : Externals}.

(** C9: a successful edit (the handler redirects to the post) overwrites
    title, subtitle, body and image URL of the target row with the form data
    and keeps its id, date and author; every other post row, every comment,
    every user and the session are as before, and no row is created or
    deleted. *)
Theorem edit_post_overwrites_four_fields (req : request) (st st' : State)
    (id : nat) (p : BlogPost) (fl : list string) :
  get_post (db st) id = Some p ->
  run (edit_post req id) st = (Redirect (ep_read_post id), fl, st') ->
  let f := new_CreatePostForm req (title p) (subtitle p) (body p) (img_url p) in
  get_post (db st') id
    = Some (mkBlogPost id (cp_title f) (cp_subtitle f) (date p) (cp_body f)
                       (cp_img_url f) (author_id p))
  /\ (forall id', id' <> id -> get_post (db st') id' = get_post (db st) id')
  /\ (forall q, In q (blog_posts (db st)) -> post_id q <> id ->
                In q (blog_posts (db st')))
  /\ map post_id (blog_posts (db st')) = map post_id (blog_posts (db st))
  /\ map date (blog_posts (db st')) = map date (blog_posts (db st))
  /\ map author_id (blog_posts (db st')) = map author_id (blog_posts (db st))
  /\ comments (db st') = comments (db st)
  /\ users (db st') = users (db st)
  /\ session st' = session st.
Proof.
  intros Hp Hrun f.
  pose proof (get_post_id _ _ _ Hp) as Hpid.
  unfold_handler.
  destruct (current_user_of (db st) (session st)) as [u|]; cbn in Hrun;
    [|discriminate].
  destruct (user_id u =? 1); cbn in Hrun; [|discriminate].
  rewrite (query_get_returns_found _ _ _ Hp), Hp in Hrun. cbn in Hrun.
  destruct (validate_on_submit req _); cbn in Hrun; [|discriminate].
  rewrite Hpid in Hrun.
  destruct (existsb _ (blog_posts (db st))); cbn in Hrun; [discriminate|].
  injection Hrun as _ <-.
  unfold db_with_updated_post, f.
  cbn [db session users blog_posts comments cp_title cp_subtitle cp_body
       cp_img_url new_CreatePostForm].
  set (h := update_row id (field_data req "title" (title p))
                       (field_data req "subtitle" (subtitle p))
                       (field_data req "body" (body p))
                       (field_data req "img_url" (img_url p))).
  assert (Hh : forall q, post_id (h q) = post_id q)
    by (intros q; apply update_row_id).
  repeat split.
  - unfold get_post in *. cbn [blog_posts].
    rewrite (find_map_same_key h id _ Hh), Hp. cbn.
    unfold h, update_row. rewrite Hpid, Nat.eqb_refl.
    unfold set_post_fields. rewrite Hpid. reflexivity.
  - intros id' Hne. unfold get_post. cbn [blog_posts].
    rewrite (find_map_same_key h id' _ Hh).
    destruct (find (fun q => post_id q =? id') (blog_posts (db st)))
      as [q|] eqn:Hq; [|reflexivity].
    cbn. f_equal. apply update_row_other.
    apply find_some in Hq. destruct Hq as [_ Hq].
    apply Nat.eqb_eq in Hq. congruence.
  - intros q Hq Hne. apply in_map_iff. exists q. split; [|assumption].
    apply update_row_other. assumption.
  - rewrite map_map. apply map_ext. exact Hh.
  - rewrite map_map. apply map_ext. intros q. unfold h, update_row.
    destruct (post_id q =? id); reflexivity.
  - rewrite map_map. apply map_ext. intros q. unfold h, update_row.
    destruct (post_id q =? id); reflexivity.
Qed.

End Edit.

Lemma edit_post_overwrites_four_fields_witness :
  get_post (db sample_admin_state) 1 = Some sample_post
  /\ run (edit_post (E := sample_externals) sample_edit_request 1)
         sample_admin_state
     = (Redirect (ep_read_post 1), [], sample_edited_state)
  /\ get_post (db sample_edited_state) 1
     = Some (mkBlogPost 1 "Hello again" "Edited" "April 05, 2025"
                        "<p>new text</p>" "https://example.com/y.png" (Some 1))
  /\ comments (db sample_edited_state) = comments (db sample_admin_state)
  /\ users (db sample_edited_state) = users (db sample_admin_state)
  /\ session sample_edited_state = session sample_admin_state.
Proof.
  pose proof (edit_post_overwrites_four_fields (E := sample_externals)
                sample_edit_request sample_admin_state sample_edited_state
                1 sample_post [] eq_refl eq_refl) as H.
  cbv zeta in H.
  destruct H as (H1 & _ & _ & _ & _ & _ & H2 & H3 & H4).
  repeat split; assumption || reflexivity.
Defined.

(** ** Reading a post and commenting *)

Lemma DataRequired_nonempty (s : string) : DataRequired s = true -> s <> "".
Proof.
  unfold DataRequired, truthy. intros H Hs. subst s. discriminate.
Qed.

Lemma comment_submitted_iff (req : request) :
  comment_submitted req = true
  <-> method req = POST /\ csrf_valid req = true
      /\ DataRequired (field_data req "comment" "") = true.
Proof.
  unfold comment_submitted, validate_on_submit, validate_CommentForm,
    new_CommentForm, is_submitted. cbn [cf_comment].
  destruct (method req), (csrf_valid req),
    (DataRequired (field_data req "comment" "")); cbn;
    intuition discriminate.
Qed.

Lemma read_post_overflow (req : request) (st : State) (id : nat) :
  query_get_returns (db st) id = false ->
  run (read_post req id) st = (ServerError OverflowError, [], st).
Proof.
  intros Hq. unfold_handler. rewrite Hq. reflexivity.
Qed.

Lemma read_post_not_submitted (req : request) (st : State) (id : nat) :
  query_get_returns (db st) id = true ->
  comment_submitted req = false ->
  run (read_post req id) st
    = (Rendered (post_html (get_post (db st) id)), [], st).
Proof.
  unfold comment_submitted. intros Hq Hv. unfold_handler. rewrite Hq, Hv.
  destruct st; reflexivity.
Qed.

Lemma read_post_anonymous (req : request) (st : State) (id : nat) :
  query_get_returns (db st) id = true ->
  comment_submitted req = true -> principal st = None ->
  run (read_post req id) st = (Redirect ep_login, [login_required_flash], st).
Proof.
  unfold comment_submitted, principal. intros Hq Hv Hu. unfold_handler.
  rewrite Hq, Hv. cbn. rewrite Hu.
  destruct st; reflexivity.
Qed.

Lemma read_post_authenticated (req : request) (st : State) (id : nat)
    (u : User) :
  query_get_returns (db st) id = true ->
  comment_submitted req = true -> principal st = Some u ->
  run (read_post req id) st
    = (Rendered (post_html (get_post (db st) id)), [],
       mkState (db_with_comment (db st) (field_data req "comment" "")
                  (Some (user_id u)) (option_map post_id (get_post (db st) id)))
               (session st)).
Proof.
  unfold comment_submitted, principal. intros Hq Hv Hu. unfold_handler.
  rewrite Hq, Hv. cbn. rewrite Hu. reflexivity.
Qed.

(** Whatever a visitor with no session sends to the post page, the stored
    state is unchanged. *)
Lemma read_post_anonymous_unchanged (req : request) (st : State) (id : nat) :
  principal st = None -> snd (run (read_post req id) st) = st.
Proof.
  intros Hu. destruct (query_get_returns (db st) id) eqn:Hq.
  - destruct (comment_submitted req) eqn:Hv.
    + rewrite read_post_anonymous by assumption. reflexivity.
    + rewrite read_post_not_submitted by assumption. reflexivity.
  - rewrite read_post_overflow by assumption. reflexivity.
Qed.

(** The login redirect is the response only on the branch of a validated
    submission by a visitor with no session. *)
Lemma read_post_redirect_inv (req : request) (st : State) (id : nat) :
  fst (fst (run (read_post req id) st)) = Redirect ep_login ->
  comment_submitted req = true /\ principal st = None.
Proof.
  intros Hr. destruct (query_get_returns (db st) id) eqn:Hq.
  - destruct (comment_submitted req) eqn:Hv.
    + destruct (principal st) as [u|] eqn:Hu; [|auto].
      rewrite (read_post_authenticated req st id u) in Hr by assumption.
      discriminate.
    + rewrite read_post_not_submitted in Hr by assumption. discriminate.
  - rewrite read_post_overflow in Hr by assumption. discriminate.
Qed.

(** The key [2^63] is the key of no sample post and cannot be bound. *)
Lemma sample_huge_id_not_bound (st : State) :
  db st = sample_db -> query_get_returns (db st) sample_huge_id = false.
Proof.
  intros ->. unfold query_get_returns, get_post.
  cbn [find blog_posts sample_db post_id sample_post].
  assert (Hne : (1 =? sample_huge_id) = false)
    by (apply Nat.eqb_neq; unfold sample_huge_id; lia).
  rewrite Hne. unfold sqlite_integer, sample_huge_id.
  rewrite N2Nat.id. apply N.ltb_irrefl.
Qed.

(** C5, as amended: when a visitor with no session submits the comment form
    on an existing post with a text that passes [DataRequired] (it has a
    character that is not white space), the handler flashes the login notice
    and redirects to the login route; no comment row is created (the stored
    state is unchanged) and neither the response nor the state depends on the
    text. *)
Theorem anonymous_comment_redirects_to_login (req : request) (st : State)
    (id : nat) (p : BlogPost) :
  principal st = None -> get_post (db st) id = Some p ->
  method req = POST -> csrf_valid req = true ->
  DataRequired (field_data req "comment" "") = true ->
  run (read_post req id) st = (Redirect ep_login, [login_required_flash], st)
  /\ (forall req', comment_submitted req' = true ->
                   run (read_post req' id) st = run (read_post req id) st).
Proof.
  intros Hu Hp Hm Hc Hd.
  assert (Hv : comment_submitted req = true)
    by (apply comment_submitted_iff; auto).
  pose proof (query_get_returns_found _ _ _ Hp) as Hq.
  split.
  - apply read_post_anonymous; assumption.
  - intros req' Hv'. rewrite !read_post_anonymous by assumption. reflexivity.
Qed.

Lemma anonymous_comment_redirects_to_login_witness :
  run (read_post (sample_comment_request "nice") 1) sample_anonymous_state
    = (Redirect ep_login, [login_required_flash], sample_anonymous_state)
  /\ (forall req', comment_submitted req' = true ->
                   run (read_post req' 1) sample_anonymous_state
                   = run (read_post (sample_comment_request "nice") 1)
                         sample_anonymous_state).
Proof.
  apply (anonymous_comment_redirects_to_login (sample_comment_request "nice")
           sample_anonymous_state 1 sample_post); reflexivity.
Defined.

(** C5, as stated, fails on a text that is not empty but blank: the single
    space does not pass [DataRequired], so the visitor gets the post page
    again instead of the redirect to the login route. *)
Lemma anonymous_blank_comment_is_not_redirected :
  principal sample_anonymous_state = None
  /\ get_post (db sample_anonymous_state) 1 = Some sample_post
  /\ field_data (sample_comment_request " ") "comment" "" = " "
  /\ " " <> ""
  /\ run (read_post (sample_comment_request " ") 1) sample_anonymous_state
     = (Rendered (post_html (Some sample_post)), [], sample_anonymous_state)
  /\ Rendered (post_html (Some sample_post)) <> Redirect ep_login.
Proof.
  repeat split; discriminate.
Qed.

(** C10, as amended: on the page of a post id that can be bound (below
    [2^63]) the comment form is validated before the session is looked at. A
    visitor with no session who submits an empty comment, or any submission
    that does not validate, gets the post page again, with no flash and no
    redirect; a submission of such a visitor that validates gets the login
    notice and the redirect to the login route; in both cases the stored
    state is unchanged. On any post id, the login redirect is the response
    only when the submission validated, its text is not empty and the
    visitor has no session. *)
Theorem comment_validation_precedes_authentication (req : request)
    (st : State) (id : nat) :
  (sqlite_integer id = true -> principal st = None ->
   (field_data req "comment" "" = "" ->
    run (read_post req id) st
      = (Rendered (post_html (get_post (db st) id)), [], st))
   /\ (comment_submitted req = false ->
       run (read_post req id) st
         = (Rendered (post_html (get_post (db st) id)), [], st))
   /\ (comment_submitted req = true ->
       run (read_post req id) st
         = (Redirect ep_login, [login_required_flash], st)))
  /\ (principal st = None -> snd (run (read_post req id) st) = st)
  /\ (fst (fst (run (read_post req id) st)) = Redirect ep_login ->
      comment_submitted req = true
      /\ field_data req "comment" "" <> ""
      /\ principal st = None).
Proof.
  split; [|split].
  - intros Hi Hu.
    pose proof (sqlite_integer_returns (db st) id Hi) as Hq.
    split; [|split].
    + intros He. apply read_post_not_submitted; [assumption|].
      unfold comment_submitted, validate_on_submit, validate_CommentForm,
        new_CommentForm. cbn [cf_comment]. rewrite He.
      destruct (is_submitted req), (csrf_valid req); reflexivity.
    + intros Hv. apply read_post_not_submitted; assumption.
    + intros Hv. apply read_post_anonymous; assumption.
  - apply read_post_anonymous_unchanged.
  - intros Hr. destruct (read_post_redirect_inv req st id Hr) as [Hv Hu].
    repeat split; try assumption.
    apply DataRequired_nonempty. apply comment_submitted_iff in Hv. tauto.
Qed.

Lemma comment_validation_precedes_authentication_witness :
  run (read_post (sample_comment_request "") 1) sample_anonymous_state
    = (Rendered (post_html (Some sample_post)), [], sample_anonymous_state)
  /\ run (read_post sample_get_request 1) sample_anonymous_state
     = (Rendered (post_html (Some sample_post)), [], sample_anonymous_state)
  /\ run (read_post (sample_comment_request "nice") 1)
         sample_anonymous_state
     = (Redirect ep_login, [login_required_flash], sample_anonymous_state)
  /\ snd (run (read_post (sample_comment_request "nice") 1)
              sample_anonymous_state) = sample_anonymous_state
  /\ (comment_submitted (sample_comment_request "nice") = true
      /\ field_data (sample_comment_request "nice") "comment" "" <> ""
      /\ principal sample_anonymous_state = None).
Proof.
  split; [|split; [|split; [|split]]].
  - destruct (comment_validation_precedes_authentication
                (sample_comment_request "") sample_anonymous_state 1)
      as (H & _ & _).
    destruct (H eq_refl eq_refl) as (H1 & _ & _). exact (H1 eq_refl).
  - destruct (comment_validation_precedes_authentication
                sample_get_request sample_anonymous_state 1) as (H & _ & _).
    destruct (H eq_refl eq_refl) as (_ & H2 & _). exact (H2 eq_refl).
  - destruct (comment_validation_precedes_authentication
                (sample_comment_request "nice") sample_anonymous_state 1)
      as (H & _ & _).
    destruct (H eq_refl eq_refl) as (_ & _ & H3). exact (H3 eq_refl).
  - apply (comment_validation_precedes_authentication
             (sample_comment_request "nice") sample_anonymous_state 1).
    reflexivity.
  - apply (comment_validation_precedes_authentication
             (sample_comment_request "nice") sample_anonymous_state 1).
    reflexivity.
Defined.

(** C10, as stated, fails at a post id that cannot be bound: a visitor with
    no session who submits an empty comment on the page of post [2^63] does
    not get the post page again; the lookup at the top of the handler raises
    [OverflowError] and the response is a server error. *)
Lemma empty_comment_on_unbindable_id_is_a_server_error :
  principal sample_anonymous_state = None
  /\ field_data (sample_comment_request "") "comment" "" = ""
  /\ sqlite_integer sample_huge_id = false
  /\ run (read_post (sample_comment_request "") sample_huge_id)
         sample_anonymous_state
     = (ServerError OverflowError, [], sample_anonymous_state)
  /\ (forall v, ServerError OverflowError <> Rendered v).
Proof.
  split; [reflexivity|]. split; [reflexivity|]. split; [|split].
  - unfold sqlite_integer, sample_huge_id.
    rewrite N2Nat.id. apply N.ltb_irrefl.
  - apply read_post_overflow. apply sample_huge_id_not_bound. reflexivity.
  - discriminate.
Qed.

(** ** A post id with no row *)

Section MissingPost.
Context {E : Externals}.

Lemma edit_post_missing (req : request) (st : State) (id : nat) :
  is_admin st -> get_post (db st) id = None -> sqlite_integer id = true ->
  run (edit_post req id) st = (ServerError AttributeError, [], st).
Proof.
  intros (u & Hu & Hid) Hp Hi. unfold principal in Hu.
  unfold_handler. rewrite Hu. cbn. rewrite Hid. cbn.
  rewrite (query_get_returns_missing _ _ Hp), Hi, Hp. reflexivity.
Qed.

Lemma delete_post_missing (st : State) (id : nat) :
  is_admin st -> get_post (db st) id = None -> sqlite_integer id = true ->
  run (delete_post id) st = (ServerError UnmappedInstanceError, [], st).
Proof.
  intros (u & Hu & Hid) Hp Hi. unfold principal in Hu.
  unfold_handler. rewrite Hu. cbn. rewrite Hid. cbn.
  rewrite (query_get_returns_missing _ _ Hp), Hi, Hp. reflexivity.
Qed.

Lemma edit_post_overflow (req : request) (st : State) (id : nat) :
  is_admin st -> query_get_returns (db st) id = false ->
  run (edit_post req id) st = (ServerError OverflowError, [], st).
Proof.
  intros (u & Hu & Hid) Hq. unfold principal in Hu.
  unfold_handler. rewrite Hu. cbn. rewrite Hid. cbn. rewrite Hq.
  reflexivity.
Qed.

Lemma delete_post_overflow (st : State) (id : nat) :
  is_admin st -> query_get_returns (db st) id = false ->
  run (delete_post id) st = (ServerError OverflowError, [], st).
Proof.
  intros (u & Hu & Hid) Hq. unfold principal in Hu.
  unfold_handler. rewrite Hu. cbn. rewrite Hid. cbn. rewrite Hq.
  reflexivity.
Qed.

(** An edit or delete request for a post id with no row changes nothing,
    whoever sends it. *)
Lemma edit_post_missing_unchanged (req : request) (st : State) (id : nat) :
  get_post (db st) id = None -> snd (run (edit_post req id) st) = st.
Proof.
  intros Hp. destruct (is_admin_dec st) as [Ha|Hn].
  - destruct (sqlite_integer id) eqn:Hi.
    + rewrite edit_post_missing by assumption. reflexivity.
    + rewrite edit_post_overflow; [reflexivity|assumption|].
      rewrite query_get_returns_missing; assumption.
  - unfold edit_post.
    match goal with
    | |- context [run (admin_only ?f) st] =>
        destruct (admin_only_refused f st Hn) as [-> | ->]; reflexivity
    end.
Qed.

Lemma delete_post_missing_unchanged (st : State) (id : nat) :
  get_post (db st) id = None -> snd (run (delete_post id) st) = st.
Proof.
  intros Hp. destruct (is_admin_dec st) as [Ha|Hn].
  - destruct (sqlite_integer id) eqn:Hi.
    + rewrite delete_post_missing by assumption. reflexivity.
    + rewrite delete_post_overflow; [reflexivity|assumption|].
      rewrite query_get_returns_missing; assumption.
  - unfold delete_post.
    match goal with
    | |- context [run (admin_only ?f) st] =>
        destruct (admin_only_refused f st Hn) as [-> | ->]; reflexivity
    end.
Qed.

Lemma edit_post_missing_run (req : request) (st : State) (id : nat) :
  is_admin st -> get_post (db st) id = None ->
  exists e, run (edit_post req id) st = (ServerError e, [], st).
Proof.
  intros Ha Hp. destruct (sqlite_integer id) eqn:Hi.
  - rewrite edit_post_missing by assumption. eauto.
  - rewrite edit_post_overflow; [eauto|assumption|].
    rewrite query_get_returns_missing; assumption.
Qed.

Lemma delete_post_missing_run (st : State) (id : nat) :
  is_admin st -> get_post (db st) id = None ->
  exists e, run (delete_post id) st = (ServerError e, [], st).
Proof.
  intros Ha Hp. destruct (sqlite_integer id) eqn:Hi.
  - rewrite delete_post_missing by assumption. eauto.
  - rewrite delete_post_overflow; [eauto|assumption|].
    rewrite query_get_returns_missing; assumption.
Qed.

(** C4, as amended: for a post id with no row, an edit or delete request
    changes nothing, whoever sends it; and when the id can be bound (it is
    below [2^63]), viewing the post renders the post page with no post and
    changes nothing, a validated comment of a logged-in user is stored, as
    one new row with a null post reference, and the page is rendered, and a
    validated comment of a visitor with no session gets the login redirect
    and changes nothing. *)
Theorem missing_post_is_not_reported (req : request) (st : State) (id : nat) :
  get_post (db st) id = None ->
  snd (run (edit_post req id) st) = st
  /\ snd (run (delete_post id) st) = st
  /\ (sqlite_integer id = true ->
      (comment_submitted req = false ->
       run (read_post req id) st = (Rendered (post_html None), [], st))
      /\ (forall u, comment_submitted req = true -> principal st = Some u ->
          run (read_post req id) st
            = (Rendered (post_html None), [],
               mkState (db_with_comment (db st) (field_data req "comment" "")
                                        (Some (user_id u)) None)
                       (session st)))
      /\ (comment_submitted req = true -> principal st = None ->
          run (read_post req id) st
            = (Redirect ep_login, [login_required_flash], st))).
Proof.
  intros Hp. split; [|split].
  - apply edit_post_missing_unchanged. assumption.
  - apply delete_post_missing_unchanged. assumption.
  - intros Hi.
    pose proof (sqlite_integer_returns (db st) id Hi) as Hq.
    split; [|split].
    + intros Hv. rewrite read_post_not_submitted by assumption.
      rewrite Hp. reflexivity.
    + intros u Hv Hu.
      rewrite (read_post_authenticated req st id u) by assumption.
      rewrite Hp. reflexivity.
    + intros Hv Hu. apply read_post_anonymous; assumption.
Qed.

End MissingPost.

Lemma missing_post_is_not_reported_witness :
  snd (run (edit_post (E := sample_externals) sample_edit_request 7)
           sample_admin_state) = sample_admin_state
  /\ snd (run (delete_post 7) sample_admin_state) = sample_admin_state
  /\ run (read_post sample_get_request 7) sample_alice_state
     = (Rendered (post_html None), [], sample_alice_state)
  /\ run (read_post (sample_comment_request "nice") 7) sample_alice_state
     = (Rendered (post_html None), [],
        mkState (db_with_comment sample_db "nice" (Some 2) None) (Some 2))
  /\ run (read_post (sample_comment_request "nice") 7) sample_anonymous_state
     = (Redirect ep_login, [login_required_flash], sample_anonymous_state).
Proof.
  split; [|split; [|split; [|split]]].
  - apply (missing_post_is_not_reported (E := sample_externals)
             sample_edit_request sample_admin_state 7). reflexivity.
  - apply (missing_post_is_not_reported (E := sample_externals)
             sample_edit_request sample_admin_state 7). reflexivity.
  - destruct (missing_post_is_not_reported (E := sample_externals)
                sample_get_request sample_alice_state 7 eq_refl)
      as (_ & _ & H).
    destruct (H eq_refl) as (H1 & _ & _). exact (H1 eq_refl).
  - destruct (missing_post_is_not_reported (E := sample_externals)
                (sample_comment_request "nice") sample_alice_state 7
                eq_refl) as (_ & _ & H).
    destruct (H eq_refl) as (_ & H2 & _).
    exact (H2 sample_alice eq_refl eq_refl).
  - destruct (missing_post_is_not_reported (E := sample_externals)
                (sample_comment_request "nice") sample_anonymous_state 7
                eq_refl) as (_ & _ & H).
    destruct (H eq_refl) as (_ & _ & H3). exact (H3 eq_refl eq_refl).
Defined.

(** C4, as stated, fails: post 7 is not in the sample store, yet Alice's
    comment on it is stored (a third comment row, with a null post
    reference) and the response is the rendered post page, not the
    not-found response; the administrator's delete request for post 7 is
    answered with a server error, not the not-found response. *)
Lemma comment_on_missing_post_is_stored :
  get_post (db sample_alice_state) 7 = None
  /\ run (read_post (sample_comment_request "nice") 7) sample_alice_state
     = (Rendered (post_html None), [],
        mkState (mkDB [sample_admin; sample_alice] [sample_post]
                      [mkComment 1 "nice" (Some 2) (Some 1);
                       mkComment 2 "thanks" (Some 1) (Some 1);
                       mkComment 3 "nice" (Some 2) None])
                (Some 2))
  /\ Rendered (post_html None) <> NotFound
  /\ snd (run (read_post (sample_comment_request "nice") 7)
              sample_alice_state) <> sample_alice_state
  /\ run (delete_post 7) sample_admin_state
     = (ServerError UnmappedInstanceError, [], sample_admin_state)
  /\ ServerError UnmappedInstanceError <> NotFound.
Proof.
  repeat split; discriminate.
Qed.

(** ** Registration and login *)

Lemma user_by_email_some (d : DB) (email : string) (u : User) :
  user_by_email d email = Some u -> In u (users d) /\ user_email u = email.
Proof.
  unfold user_by_email. intros Hf. apply find_some in Hf.
  destruct Hf as [Hin Heq]. apply String.eqb_eq in Heq. auto.
Qed.

Lemma user_by_email_none (d : DB) (email : string) :
  user_by_email d email = None
  <-> (forall u, In u (users d) -> user_email u <> email).
Proof.
  unfold user_by_email. split.
  - intros Hf u Hin Heq.
    apply (find_none _ _ Hf) in Hin. apply String.eqb_neq in Hin. auto.
  - intros Hall.
    destruct (find _ (users d)) as [u|] eqn:Hf; [|reflexivity].
    apply find_some in Hf. destruct Hf as [Hin Heq].
    apply String.eqb_eq in Heq. destruct (Hall u Hin Heq).
Qed.

Section Accounts.
Context {E : Externals}.

Lemma register_not_submitted (req : request) (st : State) :
  register_submitted req = false ->
  run (register req) st = (Rendered register_html, [], st).
Proof.
  unfold register_submitted. intros Hv. unfold_handler. rewrite Hv.
  destruct st; reflexivity.
Qed.

Lemma login_not_submitted (req : request) (st : State) :
  login_submitted req = false ->
  run (login req) st = (Rendered login_html, [], st).
Proof.
  unfold login_submitted. intros Hv. unfold_handler. rewrite Hv.
  destruct st; reflexivity.
Qed.

Lemma register_existing (req : request) (st : State) (u : User) :
  register_submitted req = true ->
  user_by_email (db st) (field_data req "email" "") = Some u ->
  run (register req) st = (Redirect ep_login, [duplicate_email_flash], st).
Proof.
  unfold register_submitted. intros Hv Hu. unfold_handler. rewrite Hv.
  cbn. rewrite Hu. destruct st; reflexivity.
Qed.

(** C6, as amended: a registration whose e-mail address is, character for
    character, that of a stored user writes nothing: the stored state (user
    table and session included) is the same afterwards. When the submission
    validates, the handler flashes the duplicate-address notice and
    redirects to the login route; when it does not, the registration page is
    rendered again with no notice. *)
Theorem register_duplicate_email_rejected (req : request) (st : State)
    (u : User) :
  In u (users (db st)) -> user_email u = field_data req "email" "" ->
  snd (run (register req) st) = st
  /\ (register_submitted req = true ->
      run (register req) st
        = (Redirect ep_login, [duplicate_email_flash], st))
  /\ (register_submitted req = false ->
      run (register req) st = (Rendered register_html, [], st)).
Proof.
  intros Hin Heq.
  assert (Hex : exists v, user_by_email (db st) (field_data req "email" "")
                          = Some v).
  { unfold user_by_email. apply (find_some_eqb _ _ u Hin).
    apply String.eqb_eq. assumption. }
  destruct Hex as [v Hv].
  split; [|split].
  - destruct (register_submitted req) eqn:Hs.
    + rewrite (register_existing req st v) by assumption. reflexivity.
    + rewrite register_not_submitted by assumption. reflexivity.
  - intros Hs. apply (register_existing req st v); assumption.
  - intros Hs. apply register_not_submitted. assumption.
Qed.

Lemma login_unknown_email (req : request) (st : State) :
  login_submitted req = true ->
  user_by_email (db st) (field_data req "email" "") = None ->
  run (login req) st = (Redirect ep_login, [unknown_email_flash], st).
Proof.
  unfold login_submitted. intros Hv Hno.
  unfold_handler. rewrite Hv. cbn. rewrite Hno. destruct st; reflexivity.
Qed.

Lemma login_wrong_password (req : request) (st : State) (u : User) :
  login_submitted req = true ->
  user_by_email (db st) (field_data req "email" "") = Some u ->
  check_password_hash (user_password u) (field_data req "password" "")
    = false ->
  run (login req) st = (Redirect ep_login, [incorrect_password_flash], st).
Proof.
  unfold login_submitted. intros Hv Hu Hc.
  unfold_handler. rewrite Hv. cbn. rewrite Hu, Hc. destruct st; reflexivity.
Qed.

Lemma login_success (req : request) (st : State) (u : User) :
  login_submitted req = true ->
  user_by_email (db st) (field_data req "email" "") = Some u ->
  check_password_hash (user_password u) (field_data req "password" "")
    = true ->
  run (login req) st
    = (Redirect ep_home, [], mkState (db st) (Some (user_id u))).
Proof.
  unfold login_submitted. intros Hv Hu Hc.
  unfold_handler. rewrite Hv. cbn. rewrite Hu, Hc. reflexivity.
Qed.

(** C8, as amended: on a validated login submission, an e-mail address of
    no stored user gives the unknown-address notice and a redirect to the
    login route; a stored hash that does not verify against the password
    gives the wrong-password notice and the same redirect; in both cases the
    stored state, session included, is unchanged. When the hash verifies,
    the session is bound to the id of the matched user, the store is
    unchanged and the response is the redirect to the home page. A
    submission that does not validate gets the login page again, with no
    notice and the stored state unchanged. *)
Theorem login_outcomes (req : request) (st : State) :
  (login_submitted req = false ->
   run (login req) st = (Rendered login_html, [], st))
  /\ (login_submitted req = true ->
      ((forall u, In u (users (db st)) ->
                  user_email u <> field_data req "email" "") ->
       run (login req) st = (Redirect ep_login, [unknown_email_flash], st))
      /\ (forall u,
            user_by_email (db st) (field_data req "email" "") = Some u ->
            check_password_hash (user_password u)
              (field_data req "password" "") = false ->
            run (login req) st
              = (Redirect ep_login, [incorrect_password_flash], st))
      /\ (forall u,
            user_by_email (db st) (field_data req "email" "") = Some u ->
            check_password_hash (user_password u)
              (field_data req "password" "") = true ->
            run (login req) st
              = (Redirect ep_home, [], mkState (db st) (Some (user_id u))))).
Proof.
  split.
  - apply login_not_submitted.
  - intros Hv. repeat split.
    + intros Hno. apply user_by_email_none in Hno.
      apply login_unknown_email; assumption.
    + intros u Hu Hc. apply (login_wrong_password req st u); assumption.
    + intros u Hu Hc. apply (login_success req st u); assumption.
Qed.

End Accounts.

Lemma register_duplicate_email_rejected_witness :
  snd (run (register (E := sample_externals) sample_register_request)
           sample_anonymous_state) = sample_anonymous_state
  /\ run (register (E := sample_externals) sample_register_request)
         sample_anonymous_state
     = (Redirect ep_login, [duplicate_email_flash], sample_anonymous_state)
  /\ run (register (E := sample_externals)
            sample_blank_name_register_request) sample_anonymous_state
     = (Rendered register_html, [], sample_anonymous_state).
Proof.
  split; [|split].
  - apply (register_duplicate_email_rejected (E := sample_externals)
             sample_register_request sample_anonymous_state sample_alice).
    + right. left. reflexivity.
    + reflexivity.
  - destruct (register_duplicate_email_rejected (E := sample_externals)
                sample_register_request sample_anonymous_state sample_alice)
      as (_ & H & _).
    + right. left. reflexivity.
    + reflexivity.
    + exact (H eq_refl).
  - destruct (register_duplicate_email_rejected (E := sample_externals)
                sample_blank_name_register_request sample_anonymous_state
                sample_alice) as (_ & _ & H).
    + right. left. reflexivity.
    + reflexivity.
    + exact (H eq_refl).
Defined.

(** C6, as stated, fails on a submission that does not validate: with a
    blank name and the address of the stored user Alice, the registration
    page is rendered again; there is no duplicate-address notice and no
    redirect. *)
Lemma blank_name_duplicate_email_is_not_reported :
  In sample_alice (users (db sample_anonymous_state))
  /\ user_email sample_alice
     = field_data sample_blank_name_register_request "email" ""
  /\ run (register (E := sample_externals)
            sample_blank_name_register_request) sample_anonymous_state
     = (Rendered register_html, [], sample_anonymous_state)
  /\ (Rendered register_html, @nil string)
     <> (Redirect ep_login, [duplicate_email_flash]).
Proof.
  repeat split; [right; left; reflexivity|discriminate].
Qed.

Lemma login_outcomes_witness :
  run (login (E := sample_externals) (sample_login_request "a@x.com" " "))
      sample_anonymous_state
    = (Rendered login_html, [], sample_anonymous_state)
  /\ run (login (E := sample_externals)
            (sample_login_request "b@x.com" "pw123")) sample_anonymous_state
     = (Redirect ep_login, [unknown_email_flash], sample_anonymous_state)
  /\ run (login (E := sample_externals)
                (sample_login_request "a@x.com" "guess"))
         sample_anonymous_state
     = (Redirect ep_login, [incorrect_password_flash], sample_anonymous_state)
  /\ run (login (E := sample_externals)
                (sample_login_request "a@x.com" "pw123"))
         sample_anonymous_state
     = (Redirect ep_home, [], sample_alice_state).
Proof.
  split; [|split; [|split]].
  - destruct (login_outcomes (E := sample_externals)
                (sample_login_request "a@x.com" " ")
                sample_anonymous_state) as (H & _).
    exact (H eq_refl).
  - destruct (login_outcomes (E := sample_externals)
                (sample_login_request "b@x.com" "pw123")
                sample_anonymous_state) as (_ & H).
    destruct (H eq_refl) as (H1 & _ & _).
    apply H1. intros u [<-|[<-|[]]]; discriminate.
  - destruct (login_outcomes (E := sample_externals)
                (sample_login_request "a@x.com" "guess")
                sample_anonymous_state) as (_ & H).
    destruct (H eq_refl) as (_ & H2 & _).
    exact (H2 sample_alice eq_refl eq_refl).
  - destruct (login_outcomes (E := sample_externals)
                (sample_login_request "a@x.com" "pw123")
                sample_anonymous_state) as (_ & H).
    destruct (H eq_refl) as (_ & _ & H3).
    exact (H3 sample_alice eq_refl eq_refl).
Defined.

(** C8, as stated, fails on a submission that does not validate: with a
    blank password, the address of no stored user gets no unknown-address
    notice, and the address of the stored user Alice, whose hash does not
    verify against the blank password, gets no wrong-password notice; the
    login page is rendered again. *)
Lemma blank_password_login_is_not_reported :
  (forall u, In u (users (db sample_anonymous_state)) ->
             user_email u <> "nobody@x.com")
  /\ run (login (E := sample_externals)
            (sample_login_request "nobody@x.com" " ")) sample_anonymous_state
     = (Rendered login_html, [], sample_anonymous_state)
  /\ user_by_email (db sample_anonymous_state) "a@x.com" = Some sample_alice
  /\ check_password_hash (E := sample_externals)
       (user_password sample_alice) " " = false
  /\ run (login (E := sample_externals) (sample_login_request "a@x.com" " "))
         sample_anonymous_state
     = (Rendered login_html, [], sample_anonymous_state)
  /\ (forall msg, (Rendered login_html, @nil string)
                  <> (Redirect ep_login, [msg])).
Proof.
  repeat split; try discriminate.
  intros u [<-|[<-|[]]]; discriminate.
Qed.

(** ** Stored credentials *)

Lemma split_dollar_append (a r : string) :
  no_dollar a = true ->
  split_dollar (String.append a (String "$"%char r)) = (a, Some r).
Proof.
  induction a as [|c a IH]; simpl; [reflexivity|].
  intros Hn. apply andb_prop in Hn. destruct Hn as [Hc Ha].
  apply Bool.negb_true_iff in Hc. rewrite Hc, (IH Ha). reflexivity.
Qed.

Section Credentials.
Context {E : Externals}.

Lemma no_dollar_append_dollar (a r : string) :
  no_dollar (String.append a (String "$"%char r)) = false.
Proof.
  induction a as [|c a IH]; simpl; [reflexivity|].
  rewrite IH. apply Bool.andb_false_r.
Qed.

(** The stored hash has a ["$"], so it differs from every password that has
    none. *)
Lemma generate_password_hash_differs (password salt : string) :
  no_dollar password = true ->
  generate_password_hash password salt <> password.
Proof.
  unfold generate_password_hash.
  destruct (hash_internal "pbkdf2:sha256" salt password) as [h m].
  cbn [String.append]. intros Hn Heq.
  rewrite <- Heq, no_dollar_append_dollar in Hn. discriminate.
Qed.

(** The hash written at registration verifies against the password it was
    made from. *)
Lemma check_generate_password_hash (password salt : string) :
  hash_format_ok password salt ->
  check_password_hash (generate_password_hash password salt) password = true.
Proof.
  unfold hash_format_ok, check_password_hash, generate_password_hash.
  destruct (hash_internal "pbkdf2:sha256" salt password) as [h m].
  intros (Hm & Hs & Hh). cbn [String.append].
  rewrite (split_dollar_append m _ Hm).
  rewrite (split_dollar_append salt _ Hs).
  rewrite Hh. apply String.eqb_refl.
Qed.

(** A validated registration with an e-mail address of no stored user adds
    one user row, whose credential is the salted hash of the password, and
    binds the session to the new user. *)
Lemma register_success (req : request) (st : State) :
  register_submitted req = true ->
  user_by_email (db st) (field_data req "email" "") = None ->
  run (register req) st
    = (Redirect ep_home, [],
       mkState (db_with_user (db st) (field_data req "name" "")
                  (field_data req "email" "")
                  (generate_password_hash (field_data req "password" "")
                                          (salt req)))
               (Some (next_id (map user_id (users (db st)))))).
Proof.
  unfold register_submitted. intros Hv Hu.
  pose proof (find_none_existsb _ _ Hu) as Hex.
  unfold_handler. rewrite Hv. cbn. rewrite Hu. cbn.
  unfold user_by_email in Hex. cbn in Hex. rewrite Hex. reflexivity.
Qed.

Lemma find_app_new {A} (f : A -> bool) (l : list A) (x : A) :
  find f l = None -> f x = true -> find f (l ++ [x]) = Some x.
Proof.
  induction l as [|a l IH]; simpl; intros Hn Hx.
  - rewrite Hx. reflexivity.
  - destruct (f a); [discriminate|auto].
Qed.

(** X23: after a successful registration, a login submission with the same
    e-mail address and the same password succeeds, whoever is logged in at
    that time: the session is bound to the user just created. *)
Lemma login_after_register (req req' : request) (st st' : State)
    (fl : list string) (s : option nat) :
  run (register req) st = (Redirect ep_home, fl, st') ->
  hash_format_ok (field_data req "password" "") (salt req) ->
  method req' = POST -> csrf_valid req' = true ->
  field_data req' "email" "" = field_data req "email" "" ->
  field_data req' "password" "" = field_data req "password" "" ->
  run (login req') (mkState (db st') s)
    = (Redirect ep_home, [],
       mkState (db st') (Some (next_id (map user_id (users (db st)))))).
Proof.
  intros Hrun Hok Hm Hc He Hp.
  destruct (register_submitted req) eqn:Hs;
    [|rewrite register_not_submitted in Hrun by assumption; discriminate].
  destruct (user_by_email (db st) (field_data req "email" "")) as [u|] eqn:Hu;
    [rewrite (register_existing req st u) in Hrun by assumption;
     discriminate|].
  rewrite register_success in Hrun by assumption.
  injection Hrun as _ <-.
  assert (Hl : login_submitted req' = true).
  { unfold login_submitted, validate_on_submit, validate_LoginForm,
      new_LoginForm, is_submitted. cbn [lf_email lf_password].
    rewrite Hm, Hc, He, Hp.
    unfold register_submitted, validate_on_submit, validate_RegisterForm,
      new_RegisterForm in Hs. cbn [rf_name rf_email rf_password] in Hs.
    repeat (apply andb_prop in Hs; destruct Hs as [Hs ?]).
    repeat (match goal with
            | H : (_ && _)%bool = true |- _ =>
                apply andb_prop in H; destruct H
            end).
    repeat (match goal with
            | H : _ = true |- _ => rewrite H; clear H
            end).
    reflexivity. }
  set (new_user := mkUser (next_id (map user_id (users (db st))))
                          (field_data req "name" "")
                          (field_data req "email" "")
                          (generate_password_hash
                             (field_data req "password" "") (salt req))).
  assert (Hf : user_by_email
                 (db_with_user (db st) (field_data req "name" "")
                    (field_data req "email" "")
                    (generate_password_hash (field_data req "password" "")
                                            (salt req)))
                 (field_data req' "email" "") = Some new_user).
  { unfold user_by_email, db_with_user. cbn [users]. rewrite He.
    apply find_app_new; [exact Hu|]. cbn. apply String.eqb_refl. }
  match goal with
  | |- run (login req') ?s0 = _ =>
      rewrite (login_success req' s0 new_user Hl Hf); [reflexivity|]
  end.
  cbn [user_password new_user]. rewrite Hp.
  apply check_generate_password_hash. assumption.
Qed.

End Credentials.

Example register_then_login_sample :
  run (register (E := sample_externals) sample_new_register_request)
      sample_anonymous_state
    = (Redirect ep_home, [], sample_bob_state)
  /\ user_password sample_bob <> "pw456"
  /\ run (login (E := sample_externals) (sample_login_request "b@x.com" "pw456"))
         sample_anonymous_state_with_bob
     = (Redirect ep_home, [], sample_bob_state).
Proof.
  split; [reflexivity|]. split; [discriminate|].
  apply (login_after_register (E := sample_externals)
           sample_new_register_request
           (sample_login_request "b@x.com" "pw456")
           sample_anonymous_state sample_bob_state [] None); try reflexivity.
  cbv. repeat split.
Defined.

(** ** The gated handlers in full *)

Lemma validate_on_submit_false (req : request) (b : bool) :
  method req = GET \/ csrf_valid req = false ->
  validate_on_submit req b = false.
Proof.
  unfold validate_on_submit, is_submitted.
  intros [H|H]; rewrite H; [reflexivity|].
  destruct (method req); reflexivity.
Qed.

Lemma existsb_false_forall {A} (f : A -> bool) (l : list A) :
  existsb f l = false -> forall x, In x l -> f x = false.
Proof.
  intros Hex x Hin. destruct (f x) eqn:Hf; [|reflexivity].
  assert (existsb f l = true) by (apply existsb_exists; eauto).
  congruence.
Qed.

Section GatedHandlers.
Context {E : Externals}.

Lemma create_post_run_admin (req : request) (st : State) :
  is_admin st ->
  run (create_post req) st
  = let f := new_CreatePostForm req "" "" "" "" in
    if create_post_submitted req then
      if existsb (fun p => String.eqb (title p) (cp_title f))
                 (blog_posts (db st))
      then (ServerError IntegrityError, [], st)
      else (Redirect ep_home, [],
            mkState (db_with_post (db st) (cp_title f) (cp_subtitle f)
                       (today req) (cp_body f) (cp_img_url f) (Some 1))
                    (session st))
    else (Rendered (make_post_html false), [], st).
Proof.
  intros Ha. unfold create_post. rewrite (admin_only_run_admin _ st Ha).
  destruct Ha as (u & Hu & Hid). unfold principal in Hu.
  unfold create_post_submitted. cbv zeta.
  destruct (validate_on_submit req _) eqn:Hv.
  - unfold_handler. rewrite Hu. cbn [option_map flush flush_op blog_posts].
    rewrite Hid.
    destruct (existsb _ (blog_posts (db st))); reflexivity.
  - unfold_handler. destruct st; reflexivity.
Qed.

Lemma edit_post_run_admin (req : request) (st : State) (id : nat)
    (p : BlogPost) :
  is_admin st -> get_post (db st) id = Some p ->
  run (edit_post req id) st
  = let f := new_CreatePostForm req (title p) (subtitle p) (body p)
                                (img_url p) in
    if validate_on_submit req (validate_CreatePostForm f) then
      if existsb (fun q => negb (post_id q =? id)
                           && String.eqb (title q) (cp_title f))
                 (blog_posts (db st))
      then (ServerError IntegrityError, [], st)
      else (Redirect (ep_read_post id), [],
            mkState (db_with_updated_post (db st) id (cp_title f)
                       (cp_subtitle f) (cp_body f) (cp_img_url f))
                    (session st))
    else (Rendered (make_post_html true), [], st).
Proof.
  intros Ha Hp. unfold edit_post. rewrite (admin_only_run_admin _ st Ha).
  pose proof (get_post_id _ _ _ Hp) as Hpid.
  cbv zeta. unfold_handler.
  rewrite (query_get_returns_found _ _ _ Hp), Hp.
  destruct (validate_on_submit req _) eqn:Hv.
  - cbn. rewrite Hpid.
    destruct (existsb _ (blog_posts (db st))); reflexivity.
  - destruct st; reflexivity.
Qed.

End GatedHandlers.

(** ** Every request is one step *)

Lemma principal_stored (st : State) (u : User) :
  principal st = Some u -> In u (users (db st)).
Proof.
  unfold principal, current_user_of, load_user, get_user.
  destruct (session st) as [uid|]; [|discriminate].
  intros Hf. apply find_some in Hf. tauto.
Qed.

Section Steps.
Context {E : Externals}.

Lemma register_step (req : request) (st : State) :
  step st (snd (run (register req) st)).
Proof.
  destruct (register_submitted req) eqn:Hs.
  - destruct (user_by_email (db st) (field_data req "email" "")) as [u|] eqn:Hu.
    + rewrite (register_existing req st u) by assumption. apply step_stay.
    + rewrite register_success by assumption.
      apply step_register. assumption.
  - rewrite register_not_submitted by assumption. apply step_stay.
Qed.

Lemma login_step (req : request) (st : State) :
  step st (snd (run (login req) st)).
Proof.
  destruct (login_submitted req) eqn:Hs.
  - destruct (user_by_email (db st) (field_data req "email" "")) as [u|] eqn:Hu.
    + destruct (check_password_hash (user_password u)
                  (field_data req "password" "")) eqn:Hc.
      * rewrite (login_success req st u) by assumption.
        apply step_login. apply user_by_email_some in Hu. tauto.
      * rewrite (login_wrong_password req st u) by assumption.
        apply step_stay.
    + rewrite login_unknown_email by assumption. apply step_stay.
  - rewrite login_not_submitted by assumption. apply step_stay.
Qed.

Lemma read_post_step (req : request) (st : State) (id : nat) :
  step st (snd (run (read_post req id) st)).
Proof.
  destruct (query_get_returns (db st) id) eqn:Hq;
    [|rewrite read_post_overflow by assumption; apply step_stay].
  destruct (comment_submitted req) eqn:Hs.
  - destruct (principal st) as [u|] eqn:Hu.
    + rewrite (read_post_authenticated req st id u) by assumption.
      apply step_comment. assumption.
    + rewrite read_post_anonymous by assumption. apply step_stay.
  - rewrite read_post_not_submitted by assumption. apply step_stay.
Qed.

Lemma create_post_step (req : request) (st : State) :
  step st (snd (run (create_post req) st)).
Proof.
  destruct (is_admin_dec st) as [Ha|Hn].
  - rewrite create_post_run_admin by assumption. cbv zeta.
    destruct (create_post_submitted req); [|apply step_stay].
    destruct (existsb _ (blog_posts (db st))) eqn:Hex; [apply step_stay|].
    apply step_create; [assumption|].
    intros p Hin Ht.
    pose proof (existsb_false_forall _ _ Hex p Hin) as Hf. cbn in Hf.
    apply String.eqb_neq in Hf. auto.
  - unfold create_post.
    match goal with
    | |- context [run (admin_only ?f) st] =>
        destruct (admin_only_refused f st Hn) as [-> | ->]; apply step_stay
    end.
Qed.

Lemma edit_post_step (req : request) (st : State) (id : nat) :
  step st (snd (run (edit_post req id) st)).
Proof.
  destruct (is_admin_dec st) as [Ha|Hn].
  - destruct (get_post (db st) id) as [p|] eqn:Hp.
    + rewrite (edit_post_run_admin req st id p) by assumption. cbv zeta.
      destruct (validate_on_submit req _); [|apply step_stay].
      destruct (existsb _ (blog_posts (db st))) eqn:Hex; [apply step_stay|].
      apply (step_update st p); [assumption|assumption|].
      intros q Hin Hne Ht.
      pose proof (existsb_false_forall _ _ Hex q Hin) as Hf. cbn in Hf.
      apply Nat.eqb_neq in Hne. rewrite Hne in Hf. cbn in Hf.
      apply String.eqb_neq in Hf. auto.
    + rewrite (edit_post_missing_unchanged req st id Hp). apply step_stay.
  - unfold edit_post.
    match goal with
    | |- context [run (admin_only ?f) st] =>
        destruct (admin_only_refused f st Hn) as [-> | ->]; apply step_stay
    end.
Qed.

Lemma delete_post_step (st : State) (id : nat) :
  step st (snd (run (delete_post id) st)).
Proof.
  destruct (is_admin_dec st) as [Ha|Hn].
  - destruct (get_post (db st) id) as [p|] eqn:Hp.
    + rewrite (delete_post_run st id p) by assumption.
      apply (step_delete st p); assumption.
    + rewrite (delete_post_missing_unchanged st id Hp). apply step_stay.
  - unfold delete_post.
    match goal with
    | |- context [run (admin_only ?f) st] =>
        destruct (admin_only_refused f st Hn) as [-> | ->]; apply step_stay
    end.
Qed.

Lemma view_function_step (req : request) (r : route) (st : State) :
  step st (snd (run (view_function req r) st)).
Proof.
  destruct r; cbn [view_function].
  - destruct st; apply step_stay.
  - destruct st; apply step_stay.
  - destruct st; apply step_stay.
  - apply register_step.
  - apply login_step.
  - apply step_logout.
  - apply read_post_step.
  - apply create_post_step.
  - apply edit_post_step.
  - apply delete_post_step.
Qed.

Lemma serve_step (r : route) (req : request) (st : State) :
  step st (snd (serve r req st)).
Proof.
  unfold serve, dispatch.
  destruct (method req); [apply view_function_step|].
  destruct (accepts_post r); [apply view_function_step|apply step_stay].
Qed.

End Steps.

(** ** Invariants of the store *)

Lemma max_id_ge (l : list nat) (x : nat) : In x l -> x <= max_id l.
Proof.
  induction l as [|a l IH]; simpl; [tauto|].
  intros [->|Hin]; [lia|]. specialize (IH Hin). lia.
Qed.

Lemma next_id_fresh (l : list nat) : ~ In (next_id l) l.
Proof.
  intros Hin. apply max_id_ge in Hin. unfold next_id in Hin. lia.
Qed.

Lemma NoDup_snoc {A} (l : list A) (x : A) :
  NoDup l -> ~ In x l -> NoDup (l ++ [x]).
Proof.
  induction l as [|a l IH]; simpl; intros Hnd Hx.
  - constructor; [tauto|constructor].
  - inversion Hnd as [|? ? Ha Hl]; subst. constructor.
    + rewrite in_app_iff. simpl. intros [H|[H|[]]]; [tauto|].
      subst. tauto.
    + apply IH; tauto.
Qed.

Lemma NoDup_map_filter {A B} (f : A -> B) (g : A -> bool) (l : list A) :
  NoDup (map f l) -> NoDup (map f (filter g l)).
Proof.
  induction l as [|a l IH]; simpl; intros Hnd; [constructor|].
  inversion Hnd as [|? ? Ha Hl]; subst.
  destruct (g a); simpl; [|auto].
  constructor; [|auto].
  intros Hin. apply Ha. apply in_map_iff in Hin.
  destruct Hin as (x & Hx & Hin). apply filter_In in Hin.
  apply in_map_iff. exists x. tauto.
Qed.

Lemma user_by_email_none_fresh (d : DB) (email : string) :
  user_by_email d email = None -> ~ In email (map user_email (users d)).
Proof.
  intros Hn Hin. apply in_map_iff in Hin. destruct Hin as (u & Hu & Hin).
  exact (proj1 (user_by_email_none d email) Hn u Hin Hu).
Qed.

(** Titles stay distinct when the one row with key [id] takes a title no
    other row has. *)
Lemma NoDup_titles_update (id : nat) (t s b i : string) (l : list BlogPost) :
  NoDup (map post_id l) -> NoDup (map title l) ->
  (forall q, In q l -> post_id q <> id -> title q <> t) ->
  NoDup (map title (map (update_row id t s b i) l)).
Proof.
  induction l as [|a l IH]; simpl; intros Hid Ht Hfresh; [constructor|].
  inversion Hid as [|? ? Ha Hl]; subst.
  inversion Ht as [|? ? Hta Htl]; subst.
  assert (IHl : NoDup (map title (map (update_row id t s b i) l)))
    by (apply IH; auto).
  constructor; [|exact IHl].
  intros Hin. apply in_map_iff in Hin. destruct Hin as (q' & Hq' & Hin).
  apply in_map_iff in Hin. destruct Hin as (q & <- & Hin).
  unfold update_row in Hq'.
  destruct (post_id a =? id) eqn:Haid; destruct (post_id q =? id) eqn:Hqid;
    cbn in Hq'.
  - apply Nat.eqb_eq in Haid, Hqid. apply Ha. apply in_map_iff.
    exists q. split; [congruence|assumption].
  - apply Nat.eqb_neq in Hqid.
    apply (Hfresh q (or_intror Hin) Hqid). assumption.
  - apply Nat.eqb_neq in Haid.
    apply (Hfresh a (or_introl eq_refl) Haid). symmetry. assumption.
  - apply Hta. apply in_map_iff. exists q. split; assumption.
Qed.

Lemma step_keys_unique (st st' : State) :
  step st st' -> keys_unique (db st) -> keys_unique (db st').
Proof.
  intros Hstep (Hu & He & Hp & Ht & Hc).
  destruct Hstep; unfold keys_unique;
    cbn [db db_with_user db_with_comment db_with_post db_with_updated_post
         db_without_post users blog_posts comments];
    try (repeat split; assumption).
  - rewrite !map_app. cbn [map user_id user_email].
    repeat split; try assumption.
    + apply NoDup_snoc; [assumption|apply next_id_fresh].
    + apply NoDup_snoc; [assumption|].
      apply user_by_email_none_fresh. assumption.
  - rewrite map_app. cbn [map comment_id].
    repeat split; try assumption.
    apply NoDup_snoc; [assumption|apply next_id_fresh].
  - rewrite !map_app. cbn [map post_id title].
    repeat split; try assumption.
    + apply NoDup_snoc; [assumption|apply next_id_fresh].
    + apply NoDup_snoc; [assumption|].
      intros Hin. apply in_map_iff in Hin. destruct Hin as (q & Hq & Hin).
      match goal with
      | Hf : forall p, In p _ -> title p <> _ |- _ => exact (Hf q Hin Hq)
      end.
  - repeat split; try assumption.
    + rewrite map_map.
      rewrite (map_ext _ post_id); [assumption|].
      intros q. apply update_row_id.
    + apply NoDup_titles_update; assumption.
  - repeat split; try assumption.
    + apply NoDup_map_filter. assumption.
    + apply NoDup_map_filter. assumption.
    + rewrite map_map.
      rewrite (map_ext _ comment_id); [assumption|].
      intros c. apply detach_comment_id.
Qed.

Lemma get_post_stored (d : DB) (id : nat) (p : BlogPost) :
  get_post d id = Some p -> In p (blog_posts d).
Proof.
  unfold get_post. intros Hf. apply find_some in Hf. tauto.
Qed.

Lemma is_admin_stored (st : State) : is_admin st -> In 1 (user_ids (db st)).
Proof.
  intros (u & Hu & Hid). apply principal_stored in Hu.
  unfold user_ids. apply in_map_iff. exists u. auto.
Qed.

Lemma step_references_valid (st st' : State) :
  step st st' -> references_valid st -> references_valid st'.
Proof.
  intros Hstep (Hposter & Hpost & Hauthor & Hsess).
  destruct Hstep; unfold references_valid, user_ids, post_ids in *;
    cbn [db session db_with_user db_with_comment db_with_post
         db_with_updated_post db_without_post users blog_posts comments].
  - auto.
  - repeat split; auto. discriminate.
  - repeat split; auto. intros uid [= <-]. apply in_map. assumption.
  - rewrite map_app. cbn [map user_id].
    repeat split.
    + intros c Hc. destruct (Hposter c Hc) as (uid & Hp & Hin).
      exists uid. rewrite in_app_iff. auto.
    + auto.
    + intros p Hp. destruct (Hauthor p Hp) as (uid & Ha & Hin).
      exists uid. rewrite in_app_iff. auto.
    + intros uid [= <-]. rewrite in_app_iff. right. left. reflexivity.
  - repeat split; auto.
    + intros c Hc. apply in_app_iff in Hc. destruct Hc as [Hc|[<-|[]]].
      * auto.
      * exists (user_id u). split; [reflexivity|].
        apply in_map. apply principal_stored. assumption.
    + intros c pid Hc Hpid. apply in_app_iff in Hc.
      destruct Hc as [Hc|[<-|[]]]; [eauto|].
      cbn [blog_post_id] in Hpid.
      destruct (get_post (db st) id) as [p|] eqn:Hg; [|discriminate].
      injection Hpid as <-. apply in_map.
      apply (get_post_stored _ _ _ Hg).
  - rewrite map_app. cbn [map post_id].
    repeat split; auto.
    + intros c pid Hc Hpid. rewrite in_app_iff. eauto.
    + intros p Hp. apply in_app_iff in Hp. destruct Hp as [Hp|[<-|[]]].
      * auto.
      * exists 1. split; [reflexivity|].
        apply is_admin_stored. assumption.
  - repeat split; auto.
    + intros c pid Hc Hpid. rewrite map_map.
      rewrite (map_ext _ post_id); [eauto|].
      intros q. apply update_row_id.
    + intros q Hq. apply in_map_iff in Hq. destruct Hq as (q0 & <- & Hq0).
      destruct (Hauthor q0 Hq0) as (uid & Ha & Hin).
      exists uid. split; [|assumption].
      unfold update_row. destruct (post_id q0 =? id); assumption.
  - repeat split; auto.
    + intros c Hc. apply in_map_iff in Hc. destruct Hc as (c0 & <- & Hc0).
      destruct (Hposter c0 Hc0) as (uid & Hp & Hin).
      exists uid. split; [|assumption].
      rewrite (proj2 (detach_comment_text id c0)). assumption.
    + intros c pid Hc Hpid. apply in_map_iff in Hc.
      destruct Hc as (c0 & <- & Hc0).
      unfold detach_comment in Hpid.
      destruct (option_nat_eqb (blog_post_id c0) id) eqn:Heq;
        [discriminate|].
      rewrite Hpid in Heq. cbn in Heq. apply Nat.eqb_neq in Heq.
      pose proof (Hpost c0 pid Hc0 Hpid) as Hin.
      apply in_map_iff in Hin. destruct Hin as (q & Hq & Hin).
      apply in_map_iff. exists q. split; [assumption|].
      apply filter_In. split; [assumption|].
      apply Bool.negb_true_iff. apply Nat.eqb_neq. congruence.
    + intros q Hq. apply filter_In in Hq. destruct Hq as [Hq _]. auto.
Qed.

(** ** What a request cannot do *)

Section Safety.
Context {E : Externals}.

Lemma view_function_unsubmitted (req : request) (r : route) (st : State) :
  method req = GET \/ csrf_valid req = false ->
  r <> route_logout -> (forall id, r <> route_delete_post id) ->
  exists resp, run (view_function req r) st = (resp, [], st).
Proof.
  intros Hreq Hlo Hdel.
  destruct r; cbn [view_function]; try congruence;
    try (destruct (Hdel id eq_refl)).
  - eexists. destruct st; reflexivity.
  - eexists. destruct st; reflexivity.
  - eexists. destruct st; reflexivity.
  - eexists. apply register_not_submitted.
    apply validate_on_submit_false. assumption.
  - eexists. apply login_not_submitted.
    apply validate_on_submit_false. assumption.
  - destruct (query_get_returns (db st) id) eqn:Hq.
    + eexists. apply read_post_not_submitted; [assumption|].
      apply validate_on_submit_false. assumption.
    + eexists. apply read_post_overflow. assumption.
  - destruct (is_admin_dec st) as [Ha|Hn].
    + rewrite create_post_run_admin by assumption. cbv zeta.
      unfold create_post_submitted.
      rewrite validate_on_submit_false by assumption. eauto.
    + unfold create_post.
      match goal with
      | |- context [run (admin_only ?f) st] =>
          destruct (admin_only_refused f st Hn) as [-> | ->]; eauto
      end.
  - destruct (is_admin_dec st) as [Ha|Hn].
    + destruct (get_post (db st) id) as [p|] eqn:Hp.
      * rewrite (edit_post_run_admin req st id p) by assumption. cbv zeta.
        rewrite validate_on_submit_false by assumption. eauto.
      * destruct (edit_post_missing_run req st id Ha Hp) as [e ->]. eauto.
    + unfold edit_post.
      match goal with
      | |- context [run (admin_only ?f) st] =>
          destruct (admin_only_refused f st Hn) as [-> | ->]; eauto
      end.
Qed.

(** X2: a request that is not a form submission with a valid CSRF token (a GET,
    or a POST whose token does not verify) changes nothing and flashes
    nothing, on every route but [/logout] and [/delete/<id>]. *)
Theorem request_without_submission_changes_nothing (r : route)
    (req : request) (st : State) :
  method req = GET \/ csrf_valid req = false ->
  r <> route_logout -> (forall id, r <> route_delete_post id) ->
  snd (serve r req st) = st /\ snd (fst (serve r req st)) = [].
Proof.
  intros Hreq Hlo Hdel.
  destruct (view_function_unsubmitted req r st Hreq Hlo Hdel) as [resp Hr].
  unfold serve, dispatch.
  destruct (method req).
  - rewrite Hr. auto.
  - destruct (accepts_post r).
    + rewrite Hr. auto.
    + auto.
Qed.

(** X3: primary keys, e-mail addresses and titles stay free of duplicates
    through every request. *)
Theorem keys_stay_unique (r : route) (req : request) (st : State) :
  keys_unique (db st) -> keys_unique (db (snd (serve r req st))).
Proof.
  intros Hk. exact (step_keys_unique _ _ (serve_step r req st) Hk).
Qed.

(** X4: no request leaves a dangling reference: posters, authors, the posts of
    comments and the user of the session are stored rows afterwards when
    they were before. *)
Theorem references_stay_valid (r : route) (req : request) (st : State) :
  references_valid st -> references_valid (snd (serve r req st)).
Proof.
  intros Hv. exact (step_references_valid _ _ (serve_step r req st) Hv).
Qed.

(** X5: whoever is not the administrator cannot change the post table, on any
    route, with any request. *)
Theorem only_admin_changes_posts (r : route) (req : request) (st : State) :
  ~ is_admin st ->
  blog_posts (db (snd (serve r req st))) = blog_posts (db st).
Proof.
  intros Hn. pose proof (serve_step r req st) as Hstep.
  remember (snd (serve r req st)) as st' eqn:Heq. clear Heq.
  destruct Hstep; try reflexivity; contradiction.
Qed.

(** X6: a visitor with no session cannot change posts or comments; what such a
    visitor can change is the user table (by registering) and the session. *)
Theorem anonymous_changes_no_content (r : route) (req : request)
    (st : State) :
  principal st = None ->
  blog_posts (db (snd (serve r req st))) = blog_posts (db st)
  /\ comments (db (snd (serve r req st))) = comments (db st).
Proof.
  intros Hp. pose proof (serve_step r req st) as Hstep.
  remember (snd (serve r req st)) as st' eqn:Heq. clear Heq.
  destruct Hstep; try (split; reflexivity);
    try match goal with
        | Ha : is_admin _ |- _ =>
            destruct Ha as (u & Hu & _); congruence
        end.
  congruence.
Qed.

(** X7: user rows are never changed or removed: after any request the user
    table is the old one with at most one row appended. *)
Theorem users_are_append_only (r : route) (req : request) (st : State) :
  exists l, users (db (snd (serve r req st))) = users (db st) ++ l
            /\ List.length l <= 1.
Proof.
  pose proof (serve_step r req st) as Hstep.
  remember (snd (serve r req st)) as st' eqn:Heq. clear Heq.
  destruct Hstep;
    try (exists []; rewrite app_nil_r; split; [reflexivity|cbn; lia]).
  eexists. split; [reflexivity|cbn; lia].
Qed.

(** X8: comment rows are never removed, and their id, text and poster never
    change: after any request the comment table, seen through these three
    columns, is the old one with at most one row appended. *)
Theorem comments_are_never_removed (r : route) (req : request) (st : State) :
  let key := fun c => (comment_id c, text c, poster_id c) in
  exists l, map key (comments (db (snd (serve r req st))))
            = map key (comments (db st)) ++ map key l
            /\ List.length l <= 1.
Proof.
  intros key. pose proof (serve_step r req st) as Hstep.
  remember (snd (serve r req st)) as st' eqn:Heq. clear Heq.
  destruct Hstep;
    try (exists []; rewrite app_nil_r; split; [reflexivity|cbn; lia]).
  - eexists [_]. cbn [db db_with_comment comments]. rewrite map_app.
    split; [reflexivity|cbn; lia].
  - exists []. cbn [db db_without_post comments]. rewrite app_nil_r.
    split; [|cbn; lia].
    rewrite map_map. apply map_ext. intros c. unfold key.
    rewrite detach_comment_id.
    destruct (detach_comment_text id c) as [-> ->]. reflexivity.
Qed.

End Safety.

(** ** Accounts: who is created, who is logged in *)

Lemma find_id_fresh {A} (key : A -> nat) (l : list A) (n : nat) :
  ~ In n (map key l) -> find (fun x => key x =? n) l = None.
Proof.
  induction l as [|a l IH]; simpl; intros Hn; [reflexivity|].
  destruct (key a =? n) eqn:Hk.
  - apply Nat.eqb_eq in Hk. tauto.
  - apply IH. tauto.
Qed.

Lemma find_app_old {A} (f : A -> bool) (l l' : list A) (x : A) :
  find f l = Some x -> find f (l ++ l') = Some x.
Proof.
  induction l as [|a l IH]; simpl; [discriminate|].
  destruct (f a); auto.
Qed.

Section AccountOperations.
Context {E : Externals}.

(** The row a registration writes. *)
Lemma register_success_principal (req : request) (st : State) :
  principal
    (mkState (db_with_user (db st) (field_data req "name" "")
                (field_data req "email" "")
                (generate_password_hash (field_data req "password" "")
                                        (salt req)))
             (Some (next_id (map user_id (users (db st))))))
  = Some (mkUser (next_id (map user_id (users (db st))))
                 (field_data req "name" "") (field_data req "email" "")
                 (generate_password_hash (field_data req "password" "")
                                         (salt req))).
Proof.
  unfold principal, current_user_of, load_user, get_user, db_with_user.
  cbn [db session users].
  apply find_app_new.
  - apply find_id_fresh. apply next_id_fresh.
  - cbn. apply Nat.eqb_refl.
Qed.

Lemma register_success_inv (req : request) (st st' : State)
    (fl : list string) :
  run (register req) st = (Redirect ep_home, fl, st') ->
  register_submitted req = true
  /\ user_by_email (db st) (field_data req "email" "") = None
  /\ st' = mkState (db_with_user (db st) (field_data req "name" "")
                      (field_data req "email" "")
                      (generate_password_hash (field_data req "password" "")
                                              (salt req)))
                   (Some (next_id (map user_id (users (db st))))).
Proof.
  intros Hrun.
  destruct (register_submitted req) eqn:Hs;
    [|rewrite register_not_submitted in Hrun by assumption; discriminate].
  destruct (user_by_email (db st) (field_data req "email" "")) as [u|] eqn:Hu;
    [rewrite (register_existing req st u) in Hrun by assumption;
     discriminate|].
  rewrite register_success in Hrun by assumption.
  injection Hrun as _ <-. auto.
Qed.

(** X10: a validated registration with an e-mail address no stored user has
    appends exactly one user row, made of the submitted name and address and
    of the salted hash of the password, under the next free id; the session
    is bound to that user; posts and comments are untouched and the response
    is the redirect to the home page. *)
Theorem register_creates_one_user (req : request) (st : State) :
  register_submitted req = true ->
  (forall u, In u (users (db st)) ->
             user_email u <> field_data req "email" "") ->
  let new_user :=
    mkUser (next_id (map user_id (users (db st))))
           (field_data req "name" "") (field_data req "email" "")
           (generate_password_hash (field_data req "password" "")
                                   (salt req)) in
  exists st',
    run (register req) st = (Redirect ep_home, [], st')
    /\ users (db st') = users (db st) ++ [new_user]
    /\ ~ In (user_id new_user) (map user_id (users (db st)))
    /\ principal st' = Some new_user
    /\ blog_posts (db st') = blog_posts (db st)
    /\ comments (db st') = comments (db st).
Proof.
  intros Hs Hfresh new_user.
  apply user_by_email_none in Hfresh.
  eexists. split; [apply register_success; assumption|].
  cbn [db users blog_posts comments db_with_user].
  repeat split.
  - apply next_id_fresh.
  - apply register_success_principal.
Qed.

(** X11: on an empty user table, the user of a validated registration gets id 1
    and is the administrator from then on. *)
Theorem first_registration_makes_the_admin (req : request) (st : State) :
  users (db st) = [] -> register_submitted req = true ->
  is_admin (snd (run (register req) st)).
Proof.
  intros He Hs.
  assert (Hn : user_by_email (db st) (field_data req "email" "") = None)
    by (unfold user_by_email; rewrite He; reflexivity).
  rewrite register_success by assumption. cbn [snd].
  eexists. split; [apply register_success_principal|].
  cbn [user_id]. rewrite He. reflexivity.
Qed.

(** X12: once a user with a positive id is stored, whoever registers
    successfully is logged in as a user that is not the administrator. *)
Theorem later_registration_is_not_admin (req : request) (st st' : State)
    (fl : list string) (u : User) :
  In u (users (db st)) -> 1 <= user_id u ->
  run (register req) st = (Redirect ep_home, fl, st') ->
  ~ is_admin st'.
Proof.
  intros Hin Hpos Hrun.
  destruct (register_success_inv req st st' fl Hrun) as (_ & _ & ->).
  intros (v & Hv & Hid).
  rewrite register_success_principal in Hv. injection Hv as <-.
  cbn [user_id] in Hid.
  assert (Hle : user_id u <= max_id (map user_id (users (db st))))
    by (apply max_id_ge; apply in_map; assumption).
  unfold next_id in Hid. lia.
Qed.

(** X13: the stored credential has the shape [method$salt$digest]: after a
    successful registration with a password that has no ["$"], the row
    created holds the salted hash and not the password. *)
Theorem registered_credential_is_not_the_password (req : request)
    (st st' : State) (fl : list string) :
  run (register req) st = (Redirect ep_home, fl, st') ->
  no_dollar (field_data req "password" "") = true ->
  exists u, users (db st') = users (db st) ++ [u]
            /\ user_email u = field_data req "email" ""
            /\ user_password u
               = generate_password_hash (field_data req "password" "")
                                        (salt req)
            /\ user_password u <> field_data req "password" "".
Proof.
  intros Hrun Hnd.
  destruct (register_success_inv req st st' fl Hrun) as (_ & _ & ->).
  eexists. split; [reflexivity|]. cbn [user_email user_password].
  repeat split. apply generate_password_hash_differs. assumption.
Qed.

End AccountOperations.

(** ** Content: posts and comments *)

Lemma filter_all {A} (f : A -> bool) (l : list A) :
  (forall x, In x l -> f x = true) -> filter f l = l.
Proof.
  induction l as [|a l IH]; simpl; intros Hall; [reflexivity|].
  rewrite (Hall a (or_introl eq_refl)). f_equal. apply IH. auto.
Qed.

Lemma map_id_in {A} (f : A -> A) (l : list A) :
  (forall x, In x l -> f x = x) -> map f l = l.
Proof.
  induction l as [|a l IH]; simpl; intros Hall; [reflexivity|].
  rewrite (Hall a (or_introl eq_refl)). f_equal. apply IH. auto.
Qed.

Lemma NoDup_map_injective_on {A B} (f : A -> B) (l : list A) (a b : A) :
  NoDup (map f l) -> In a l -> In b l -> f a = f b -> a = b.
Proof.
  induction l as [|x l IH]; simpl; [tauto|].
  intros Hnd Ha Hb Hf. inversion Hnd as [|? ? Hx Hl]; subst.
  destruct Ha as [->|Ha], Hb as [->|Hb]; auto.
  - destruct Hx. rewrite Hf. apply in_map. assumption.
  - destruct Hx. rewrite <- Hf. apply in_map. assumption.
Qed.

Lemma get_post_new (d : DB) (t s dt b i : string) (a : option nat) :
  get_post (db_with_post d t s dt b i a) (next_id (map post_id (blog_posts d)))
  = Some (mkBlogPost (next_id (map post_id (blog_posts d))) t s dt b i a).
Proof.
  unfold get_post, db_with_post. cbn [blog_posts].
  apply find_app_new.
  - apply find_id_fresh. apply next_id_fresh.
  - cbn. apply Nat.eqb_refl.
Qed.

Lemma is_admin_same_accounts (st st' : State) :
  users (db st') = users (db st) -> session st' = session st ->
  is_admin st -> is_admin st'.
Proof.
  unfold is_admin, principal, current_user_of, load_user, get_user.
  intros -> ->. auto.
Qed.

Section ContentOperations.
Context {E : Externals}.

Lemma create_post_success (req : request) (st : State) :
  is_admin st -> create_post_submitted req = true ->
  (forall p, In p (blog_posts (db st)) -> title p <> field_data req "title" "") ->
  run (create_post req) st
  = (Redirect ep_home, [],
     mkState (db_with_post (db st) (field_data req "title" "")
                (field_data req "subtitle" "") (today req)
                (field_data req "body" "") (field_data req "img_url" "")
                (Some 1))
             (session st)).
Proof.
  intros Ha Hs Hfresh. rewrite create_post_run_admin by assumption.
  cbv zeta. rewrite Hs.
  cbn [cp_title cp_subtitle cp_body cp_img_url new_CreatePostForm].
  destruct (existsb _ (blog_posts (db st))) eqn:Hex; [|reflexivity].
  apply existsb_exists in Hex. destruct Hex as (p & Hin & Heq).
  apply String.eqb_eq in Heq. destruct (Hfresh p Hin Heq).
Qed.

(** X9: the routes that are not account routes leave the accounts alone: on
    every route but [/register], [/login] and [/logout] the user table and
    the session are the same after the request. *)
Theorem content_routes_keep_accounts (r : route) (req : request)
    (st : State) :
  r <> route_register -> r <> route_login -> r <> route_logout ->
  users (db (snd (serve r req st))) = users (db st)
  /\ session (snd (serve r req st)) = session st.
Proof.
  intros Hr Hl Ho.
  assert (Hview : users (db (snd (run (view_function req r) st)))
                    = users (db st)
                  /\ session (snd (run (view_function req r) st))
                     = session st).
  { destruct r; cbn [view_function]; try congruence; try (split; reflexivity).
    - destruct (query_get_returns (db st) id) eqn:Hq;
        [|rewrite read_post_overflow by assumption; split; reflexivity].
      destruct (comment_submitted req) eqn:Hs.
      + destruct (principal st) as [u|] eqn:Hu.
        * rewrite (read_post_authenticated req st id u) by assumption.
          split; reflexivity.
        * rewrite read_post_anonymous by assumption. split; reflexivity.
      + rewrite read_post_not_submitted by assumption. split; reflexivity.
    - destruct (is_admin_dec st) as [Ha|Hn].
      + rewrite create_post_run_admin by assumption. cbv zeta.
        destruct (create_post_submitted req); [|split; reflexivity].
        destruct (existsb _ (blog_posts (db st))); split; reflexivity.
      + unfold create_post.
        match goal with
        | |- context [run (admin_only ?f) st] =>
            destruct (admin_only_refused f st Hn) as [-> | ->];
              split; reflexivity
        end.
    - destruct (is_admin_dec st) as [Ha|Hn].
      + destruct (get_post (db st) id) as [p|] eqn:Hp.
        * rewrite (edit_post_run_admin req st id p) by assumption. cbv zeta.
          destruct (validate_on_submit req _); [|split; reflexivity].
          destruct (existsb _ (blog_posts (db st))); split; reflexivity.
        * destruct (edit_post_missing_run req st id Ha Hp) as [e ->].
          split; reflexivity.
      + unfold edit_post.
        match goal with
        | |- context [run (admin_only ?f) st] =>
            destruct (admin_only_refused f st Hn) as [-> | ->];
              split; reflexivity
        end.
    - destruct (is_admin_dec st) as [Ha|Hn].
      + destruct (get_post (db st) id) as [p|] eqn:Hp.
        * rewrite (delete_post_run st id p) by assumption. split; reflexivity.
        * destruct (delete_post_missing_run st id Ha Hp) as [e ->].
          split; reflexivity.
      + unfold delete_post.
        match goal with
        | |- context [run (admin_only ?f) st] =>
            destruct (admin_only_refused f st Hn) as [-> | ->];
              split; reflexivity
        end. }
  unfold serve, dispatch.
  destruct (method req); [exact Hview|].
  destruct (accepts_post r); [exact Hview|split; reflexivity].
Qed.

(** X14: a valid new post of the administrator with a title no stored post has
    is stored under the next free id with the submitted fields, today's date
    and the administrator as author, and is what a lookup of that id gives;
    every post stored before is still found under its id, and users,
    comments and session are untouched. *)
Theorem created_post_is_stored (req : request) (st : State) :
  is_admin st -> create_post_submitted req = true ->
  (forall p, In p (blog_posts (db st)) -> title p <> field_data req "title" "") ->
  let new_id := next_id (map post_id (blog_posts (db st))) in
  exists st',
    run (create_post req) st = (Redirect ep_home, [], st')
    /\ get_post (db st') new_id
       = Some (mkBlogPost new_id (field_data req "title" "")
                 (field_data req "subtitle" "") (today req)
                 (field_data req "body" "") (field_data req "img_url" "")
                 (Some 1))
    /\ (forall id p, get_post (db st) id = Some p ->
                     get_post (db st') id = Some p)
    /\ users (db st') = users (db st)
    /\ comments (db st') = comments (db st)
    /\ session st' = session st.
Proof.
  intros Ha Hs Hfresh new_id.
  eexists. split; [apply create_post_success; assumption|].
  cbn [db session users comments db_with_post].
  repeat split.
  - apply get_post_new.
  - intros id p Hp. unfold get_post, db_with_post. cbn [blog_posts].
    apply find_app_old. exact Hp.
Qed.

(** X15: creating a post and then deleting it gives back the stored state the
    administrator started from, provided no comment referenced a post that
    is not stored. *)
Theorem create_then_delete_restores_state (req : request) (st : State) :
  is_admin st -> references_valid st ->
  create_post_submitted req = true ->
  (forall p, In p (blog_posts (db st)) -> title p <> field_data req "title" "") ->
  exists st1,
    run (create_post req) st = (Redirect ep_home, [], st1)
    /\ run (delete_post (next_id (map post_id (blog_posts (db st))))) st1
       = (Redirect ep_home, [], st).
Proof.
  intros Ha (_ & Hposts & _ & _) Hs Hfresh.
  eexists. split; [apply create_post_success; assumption|].
  erewrite delete_post_run.
  - f_equal. destruct st as [[us ps cs] se].
    unfold db_without_post, db_with_post, post_ids in *.
    cbn [db session users blog_posts comments] in *.
    f_equal. f_equal.
    + rewrite filter_app. cbn [filter post_id].
      rewrite Nat.eqb_refl. cbn [negb]. rewrite app_nil_r.
      apply filter_all. intros q Hq.
      apply Bool.negb_true_iff. apply Nat.eqb_neq. intros Heq.
      apply (next_id_fresh (map post_id ps)). rewrite <- Heq.
      apply in_map. assumption.
    + apply map_id_in. intros c Hc. unfold detach_comment.
      destruct (blog_post_id c) as [pid|] eqn:Hpid; [|reflexivity].
      cbn [option_nat_eqb].
      destruct (pid =? next_id (map post_id ps)) eqn:Heq; [|reflexivity].
      apply Nat.eqb_eq in Heq. subst pid.
      destruct (next_id_fresh (map post_id ps)). eauto.
  - apply (is_admin_same_accounts st); [reflexivity|reflexivity|assumption].
  - cbn [db]. apply get_post_new.
Qed.

(** X16: an edit that would give the post the title of another stored post is
    refused by the store: the commit raises [IntegrityError], the response
    is a server error and nothing is changed. *)
Theorem edit_post_title_conflict (req : request) (st : State) (id : nat)
    (p q : BlogPost) :
  is_admin st -> get_post (db st) id = Some p ->
  validate_on_submit req
    (validate_CreatePostForm
       (new_CreatePostForm req (title p) (subtitle p) (body p) (img_url p)))
    = true ->
  In q (blog_posts (db st)) -> post_id q <> id ->
  title q = field_data req "title" (title p) ->
  run (edit_post req id) st = (ServerError IntegrityError, [], st).
Proof.
  intros Ha Hp Hv Hq Hne Ht.
  rewrite (edit_post_run_admin req st id p) by assumption. cbv zeta.
  rewrite Hv. cbn [cp_title new_CreatePostForm].
  assert (Hex : existsb (fun q0 => negb (post_id q0 =? id)
                                   && String.eqb (title q0)
                                        (field_data req "title" (title p)))
                        (blog_posts (db st)) = true).
  { apply existsb_exists. exists q. split; [assumption|].
    apply Nat.eqb_neq in Hne. rewrite Hne. cbn.
    apply String.eqb_eq. assumption. }
  rewrite Hex. reflexivity.
Qed.

(** X17: with distinct titles in the store, a valid edit that keeps the title of
    the post is accepted: the unique title column does not count the row
    being edited against itself. *)
Theorem edit_post_keeping_title (req : request) (st : State) (id : nat)
    (p : BlogPost) :
  is_admin st -> keys_unique (db st) -> get_post (db st) id = Some p ->
  validate_on_submit req
    (validate_CreatePostForm
       (new_CreatePostForm req (title p) (subtitle p) (body p) (img_url p)))
    = true ->
  field_data req "title" (title p) = title p ->
  run (edit_post req id) st
  = (Redirect (ep_read_post id), [],
     mkState (db_with_updated_post (db st) id (title p)
                (field_data req "subtitle" (subtitle p))
                (field_data req "body" (body p))
                (field_data req "img_url" (img_url p)))
             (session st)).
Proof.
  intros Ha (_ & _ & _ & Htitles & _) Hp Hv Ht.
  rewrite (edit_post_run_admin req st id p) by assumption. cbv zeta.
  rewrite Hv.
  cbn [cp_title cp_subtitle cp_body cp_img_url new_CreatePostForm].
  rewrite Ht.
  destruct (existsb _ (blog_posts (db st))) eqn:Hex; [|reflexivity].
  apply existsb_exists in Hex. destruct Hex as (q & Hq & Hc).
  apply andb_prop in Hc. destruct Hc as [Hne Heq].
  apply Bool.negb_true_iff in Hne. apply Nat.eqb_neq in Hne.
  apply String.eqb_eq in Heq.
  pose proof (get_post_stored _ _ _ Hp) as Hpin.
  pose proof (get_post_id _ _ _ Hp) as Hpid.
  assert (q = p)
    by (apply (NoDup_map_injective_on title (blog_posts (db st)));
        assumption).
  subst q. congruence.
Qed.

End ContentOperations.

(** ** Comments that are stored *)

Lemma app_snoc_neq {A} (l : list A) (x : A) : l ++ [x] <> l.
Proof.
  intros Heq. apply (f_equal (@List.length A)) in Heq.
  rewrite length_app in Heq. cbn in Heq. lia.
Qed.

(** X18: a validated comment of a logged-in user on a stored post is stored as
    one new row under the next free comment id, with the submitted text, the
    user as poster and the post as post; the response is the post page, not
    a redirect; users, posts and session are untouched. *)
Theorem comment_is_stored (req : request) (st : State) (id : nat)
    (u : User) (p : BlogPost) :
  principal st = Some u -> get_post (db st) id = Some p ->
  comment_submitted req = true ->
  let new_id := next_id (map comment_id (comments (db st))) in
  exists st',
    run (read_post req id) st = (Rendered (post_html (Some p)), [], st')
    /\ comments (db st')
       = comments (db st)
         ++ [mkComment new_id (field_data req "comment" "")
                       (Some (user_id u)) (Some id)]
    /\ ~ In new_id (map comment_id (comments (db st)))
    /\ users (db st') = users (db st)
    /\ blog_posts (db st') = blog_posts (db st)
    /\ session st' = session st.
Proof.
  intros Hu Hp Hs new_id.
  pose proof (query_get_returns_found _ _ _ Hp) as Hq.
  eexists. split.
  - rewrite (read_post_authenticated req st id u) by assumption.
    rewrite Hp. reflexivity.
  - cbn [db session users blog_posts comments db_with_comment option_map].
    rewrite (get_post_id _ _ _ Hp).
    repeat split. apply next_id_fresh.
Qed.

(** X19: the post page changes the stored state exactly when the lookup of
    the post returns (the id is that of a stored post or can be bound), the
    comment form validates and the visitor is logged in. *)
Theorem comment_changes_state_iff (req : request) (st : State) (id : nat) :
  snd (run (read_post req id) st) <> st
  <-> query_get_returns (db st) id = true
      /\ comment_submitted req = true /\ principal st <> None.
Proof.
  destruct (query_get_returns (db st) id) eqn:Hq.
  - destruct (comment_submitted req) eqn:Hs.
    + destruct (principal st) as [u|] eqn:Hu.
      * rewrite (read_post_authenticated req st id u) by assumption.
        split; [intros _; repeat split; discriminate|].
        intros _ Heq. apply (f_equal (fun s => comments (db s))) in Heq.
        cbn [snd db db_with_comment comments] in Heq.
        exact (app_snoc_neq _ _ Heq).
      * rewrite read_post_anonymous by assumption.
        split; [intros H; destruct (H eq_refl)
               |intros (_ & _ & H); destruct (H eq_refl)].
    + rewrite read_post_not_submitted by assumption.
      split; [intros H; destruct (H eq_refl)|intros (_ & H & _); discriminate].
  - rewrite read_post_overflow by assumption.
    split; [intros H; destruct (H eq_refl)|intros (H & _); discriminate].
Qed.

(** ** Forms that do not validate *)

Lemma all_space_lstrip (l : list ascii) :
  lstrip l = [] <-> forallb isspace l = true.
Proof.
  induction l as [|c l IH]; simpl; [tauto|].
  destruct (isspace c); simpl; [assumption|].
  split; discriminate.
Qed.

Lemma forallb_rev {A} (f : A -> bool) (l : list A) :
  forallb f (rev l) = forallb f l.
Proof.
  induction l as [|a l IH]; simpl; [reflexivity|].
  rewrite forallb_app, IH. simpl.
  rewrite Bool.andb_true_r. apply Bool.andb_comm.
Qed.

Lemma lstrip_head (l : list ascii) :
  forallb isspace (lstrip l) = true -> lstrip l = [].
Proof.
  induction l as [|c l IH]; simpl; [reflexivity|].
  destruct (isspace c) eqn:Hc; [assumption|].
  simpl. rewrite Hc. discriminate.
Qed.

Lemma string_of_list_ascii_empty (l : list ascii) :
  string_of_list_ascii l = "" <-> l = [].
Proof. destruct l; simpl; split; (reflexivity || discriminate). Qed.

Lemma strip_empty (s : string) :
  strip s = "" <-> forallb isspace (list_ascii_of_string s) = true.
Proof.
  unfold strip. rewrite string_of_list_ascii_empty.
  set (l := list_ascii_of_string s).
  split.
  - intros Hr.
    assert (Hl : lstrip (rev (lstrip l)) = [])
      by (destruct (lstrip (rev (lstrip l))); [reflexivity|];
          apply (f_equal (@List.length ascii)) in Hr;
          rewrite length_rev in Hr; discriminate).
    apply all_space_lstrip in Hl. rewrite forallb_rev in Hl.
    apply lstrip_head in Hl. apply all_space_lstrip. assumption.
  - intros Hall. apply all_space_lstrip in Hall. rewrite Hall. reflexivity.
Qed.

(** X20: [DataRequired] accepts exactly the texts that have a character that is
    not white space; in particular it refuses the empty text and every
    blank one. *)
Theorem DataRequired_iff_not_blank (s : string) :
  DataRequired s = true
  <-> exists c, In c (list_ascii_of_string s) /\ isspace c = false.
Proof.
  unfold DataRequired, truthy. split.
  - intros H. apply andb_prop in H. destruct H as [_ H].
    apply Bool.negb_true_iff in H. apply String.eqb_neq in H.
    destruct (forallb isspace (list_ascii_of_string s)) eqn:Hall.
    + destruct H. apply strip_empty. assumption.
    + apply Bool.not_true_iff_false in Hall.
      assert (Hex : existsb (fun c => negb (isspace c))
                            (list_ascii_of_string s) = true).
      { destruct (existsb _ (list_ascii_of_string s)) eqn:Hex;
          [reflexivity|].
        destruct Hall. apply forallb_forall. intros c Hc.
        pose proof (existsb_false_forall _ _ Hex c Hc) as Hf. cbn in Hf.
        apply Bool.negb_false_iff. assumption. }
      apply existsb_exists in Hex. destruct Hex as (c & Hc & Hn).
      exists c. split; [assumption|]. apply Bool.negb_true_iff. assumption.
  - intros (c & Hc & Hn).
    assert (Hall : forallb isspace (list_ascii_of_string s) <> true).
    { intros Hall. rewrite forallb_forall in Hall.
      rewrite (Hall c Hc) in Hn. discriminate. }
    apply andb_true_intro. split.
    + apply Bool.negb_true_iff. apply String.eqb_neq. intros ->.
      destruct Hc.
    + apply Bool.negb_true_iff. apply String.eqb_neq. intros Hs.
      apply Hall. apply strip_empty. assumption.
Qed.

Section InvalidForms.
Context {E : Externals}.

(** X21: a new-post submission with a blank title, subtitle or body, or with an
    image URL the [URL] validator refuses, stores nothing, whoever sends
    it. *)
Theorem invalid_post_form_is_not_stored (req : request) (st : State) :
  DataRequired (field_data req "title" "") = false
  \/ DataRequired (field_data req "subtitle" "") = false
  \/ DataRequired (field_data req "body" "") = false
  \/ URL_valid (field_data req "img_url" "") = false ->
  snd (run (create_post req) st) = st.
Proof.
  intros Hbad.
  assert (Hs : create_post_submitted req = false).
  { unfold create_post_submitted, validate_on_submit,
      validate_CreatePostForm, new_CreatePostForm.
    cbn [cp_title cp_subtitle cp_body cp_img_url].
    destruct Hbad as [H|[H|[H|H]]]; rewrite H;
      repeat (rewrite ?Bool.andb_false_r, ?Bool.andb_false_l; cbn);
      reflexivity. }
  destruct (is_admin_dec st) as [Ha|Hn].
  - rewrite create_post_run_admin by assumption. cbv zeta. rewrite Hs.
    reflexivity.
  - unfold create_post.
    match goal with
    | |- context [run (admin_only ?f) st] =>
        destruct (admin_only_refused f st Hn) as [-> | ->]; reflexivity
    end.
Qed.

(** X22: a registration with a blank name or password, or with an address the
    [Email] validator refuses, creates no user and no session: the form page
    is rendered and the stored state is unchanged. *)
Theorem invalid_registration_is_not_stored (req : request) (st : State) :
  DataRequired (field_data req "name" "") = false
  \/ DataRequired (field_data req "password" "") = false
  \/ Email_valid (field_data req "email" "") = false ->
  run (register req) st = (Rendered register_html, [], st).
Proof.
  intros Hbad. apply register_not_submitted.
  unfold register_submitted, validate_on_submit, validate_RegisterForm,
    new_RegisterForm. cbn [rf_name rf_email rf_password].
  destruct Hbad as [H|[H|H]]; rewrite H;
    repeat (rewrite ?Bool.andb_false_r, ?Bool.andb_false_l; cbn);
    reflexivity.
Qed.

End InvalidForms.

(** ** Runs on the sample store *)

Ltac solve_NoDup :=
  cbn; repeat (constructor; [cbn; intuition (discriminate || lia)|]);
  constructor.

Lemma sample_keys_unique : keys_unique sample_db.
Proof. unfold keys_unique. repeat split; solve_NoDup. Defined.

Lemma sample_references_valid : references_valid sample_admin_state.
Proof.
  unfold references_valid, user_ids, post_ids. cbn. repeat split.
  - intros c [<-|[<-|[]]]; eexists; (split; [reflexivity|cbn; auto]).
  - intros c pid [<-|[<-|[]]] [= <-]; auto.
  - intros p [<-|[]]. eexists. split; [reflexivity|cbn; auto].
  - intros uid [= <-]. auto.
Defined.

Lemma sample_alice_not_admin : ~ is_admin sample_alice_state.
Proof. intros (u & Hu & Hid). cbv in Hu. injection Hu as <-. discriminate. Defined.

Lemma admin_only_forbidden_witness :
  run (admin_handler (E := sample_externals) sample_new_post_request
         (delete_route 1)) sample_alice_state
  = (Forbidden, [], sample_alice_state).
Proof.
  apply (admin_only_forbidden (E := sample_externals) sample_new_post_request
           (delete_route 1) sample_alice_state sample_alice).
  - reflexivity.
  - cbn. discriminate.
Defined.

Lemma request_without_submission_changes_nothing_witness :
  snd (serve (E := sample_externals) route_create_post sample_get_request
         sample_admin_state) = sample_admin_state
  /\ snd (fst (serve (E := sample_externals) route_create_post
                 sample_get_request sample_admin_state)) = [].
Proof.
  apply (request_without_submission_changes_nothing (E := sample_externals)
           route_create_post sample_get_request sample_admin_state).
  - left. reflexivity.
  - discriminate.
  - discriminate.
Defined.

Lemma keys_stay_unique_witness :
  keys_unique
    (db (snd (serve (E := sample_externals) route_register
                sample_new_register_request sample_anonymous_state))).
Proof.
  apply (keys_stay_unique (E := sample_externals) route_register
           sample_new_register_request sample_anonymous_state).
  exact sample_keys_unique.
Defined.

Lemma references_stay_valid_witness :
  references_valid
    (snd (serve (E := sample_externals) (route_delete_post 1)
            sample_get_request sample_admin_state)).
Proof.
  apply (references_stay_valid (E := sample_externals) (route_delete_post 1)
           sample_get_request sample_admin_state).
  exact sample_references_valid.
Defined.

Lemma only_admin_changes_posts_witness :
  blog_posts (db (snd (serve (E := sample_externals) (route_edit_post 1)
                         sample_edit_request sample_alice_state)))
  = blog_posts (db sample_alice_state).
Proof.
  apply (only_admin_changes_posts (E := sample_externals) (route_edit_post 1)
           sample_edit_request sample_alice_state).
  exact sample_alice_not_admin.
Defined.

Lemma anonymous_changes_no_content_witness :
  blog_posts (db (snd (serve (E := sample_externals) (route_read_post 1)
                         (sample_comment_request "nice")
                         sample_anonymous_state)))
  = blog_posts (db sample_anonymous_state)
  /\ comments (db (snd (serve (E := sample_externals) (route_read_post 1)
                          (sample_comment_request "nice")
                          sample_anonymous_state)))
     = comments (db sample_anonymous_state).
Proof.
  apply (anonymous_changes_no_content (E := sample_externals)
           (route_read_post 1) (sample_comment_request "nice")
           sample_anonymous_state).
  reflexivity.
Defined.

Lemma content_routes_keep_accounts_witness :
  users (db (snd (serve (E := sample_externals) (route_read_post 1)
                    (sample_comment_request "nice") sample_alice_state)))
  = users (db sample_alice_state)
  /\ session (snd (serve (E := sample_externals) (route_read_post 1)
                     (sample_comment_request "nice") sample_alice_state))
     = session sample_alice_state.
Proof.
  apply (content_routes_keep_accounts (E := sample_externals)
           (route_read_post 1) (sample_comment_request "nice")
           sample_alice_state); discriminate.
Defined.

Lemma register_creates_one_user_witness :
  exists st',
    run (register (E := sample_externals) sample_new_register_request)
        sample_anonymous_state = (Redirect ep_home, [], st')
    /\ users (db st') = users (db sample_anonymous_state) ++ [sample_bob]
    /\ ~ In (user_id sample_bob)
            (map user_id (users (db sample_anonymous_state)))
    /\ principal st' = Some sample_bob
    /\ blog_posts (db st') = blog_posts (db sample_anonymous_state)
    /\ comments (db st') = comments (db sample_anonymous_state).
Proof.
  apply (register_creates_one_user (E := sample_externals)
           sample_new_register_request sample_anonymous_state).
  - reflexivity.
  - intros u [<-|[<-|[]]]; discriminate.
Defined.

Lemma first_registration_makes_the_admin_witness :
  is_admin (snd (run (register (E := sample_externals)
                        sample_new_register_request) sample_empty_state)).
Proof.
  apply (first_registration_makes_the_admin (E := sample_externals)
           sample_new_register_request sample_empty_state); reflexivity.
Defined.

Lemma later_registration_is_not_admin_witness : ~ is_admin sample_bob_state.
Proof.
  apply (later_registration_is_not_admin (E := sample_externals)
           sample_new_register_request sample_anonymous_state
           sample_bob_state [] sample_admin).
  - left. reflexivity.
  - cbn. lia.
  - reflexivity.
Defined.

Lemma registered_credential_is_not_the_password_witness :
  exists u, users (db sample_bob_state)
            = users (db sample_anonymous_state) ++ [u]
            /\ user_email u = "b@x.com"
            /\ user_password u
               = generate_password_hash (E := sample_externals) "pw456"
                                        "saltsalt"
            /\ user_password u <> "pw456".
Proof.
  apply (registered_credential_is_not_the_password (E := sample_externals)
           sample_new_register_request sample_anonymous_state
           sample_bob_state []); reflexivity.
Defined.

Lemma created_post_is_stored_witness :
  exists st',
    run (create_post (E := sample_externals) sample_fresh_post_request)
        sample_admin_state = (Redirect ep_home, [], st')
    /\ get_post (db st') 2 = Some sample_second_post
    /\ (forall id p, get_post (db sample_admin_state) id = Some p ->
                     get_post (db st') id = Some p)
    /\ users (db st') = users (db sample_admin_state)
    /\ comments (db st') = comments (db sample_admin_state)
    /\ session st' = session sample_admin_state.
Proof.
  apply (created_post_is_stored (E := sample_externals)
           sample_fresh_post_request sample_admin_state).
  - exact sample_admin_is_admin.
  - reflexivity.
  - intros p [<-|[]]. discriminate.
Defined.

Lemma create_then_delete_restores_state_witness :
  exists st1,
    run (create_post (E := sample_externals) sample_fresh_post_request)
        sample_admin_state = (Redirect ep_home, [], st1)
    /\ run (delete_post 2) st1 = (Redirect ep_home, [], sample_admin_state).
Proof.
  apply (create_then_delete_restores_state (E := sample_externals)
           sample_fresh_post_request sample_admin_state).
  - exact sample_admin_is_admin.
  - exact sample_references_valid.
  - reflexivity.
  - intros p [<-|[]]. discriminate.
Defined.

Lemma sample_two_posts_admin : is_admin sample_two_posts_state.
Proof. exists sample_admin. split; reflexivity. Defined.

Lemma sample_two_posts_keys_unique : keys_unique (db sample_two_posts_state).
Proof. unfold keys_unique. repeat split; solve_NoDup. Defined.

Lemma edit_post_title_conflict_witness :
  run (edit_post (E := sample_externals) sample_conflicting_edit_request 1)
      sample_two_posts_state
  = (ServerError IntegrityError, [], sample_two_posts_state).
Proof.
  apply (edit_post_title_conflict (E := sample_externals)
           sample_conflicting_edit_request sample_two_posts_state 1
           sample_post sample_second_post).
  - exact sample_two_posts_admin.
  - reflexivity.
  - reflexivity.
  - right. left. reflexivity.
  - cbn. discriminate.
  - reflexivity.
Defined.

Lemma edit_post_keeping_title_witness :
  run (edit_post (E := sample_externals) sample_subtitle_edit_request 1)
      sample_two_posts_state
  = (Redirect (ep_read_post 1), [],
     mkState (mkDB [sample_admin; sample_alice]
                   [mkBlogPost 1 "Hello" "Edited" "April 05, 2025" "<p>Hi</p>"
                               "https://example.com/a.png" (Some 1);
                    sample_second_post]
                   (comments sample_db))
             (Some 1)).
Proof.
  apply (edit_post_keeping_title (E := sample_externals)
           sample_subtitle_edit_request sample_two_posts_state 1 sample_post).
  - exact sample_two_posts_admin.
  - exact sample_two_posts_keys_unique.
  - reflexivity.
  - reflexivity.
  - reflexivity.
Defined.

Lemma comment_is_stored_witness :
  exists st',
    run (read_post (sample_comment_request "again") 1) sample_alice_state
    = (Rendered (post_html (Some sample_post)), [], st')
    /\ comments (db st')
       = comments (db sample_alice_state)
         ++ [mkComment 3 "again" (Some 2) (Some 1)]
    /\ ~ In 3 (map comment_id (comments (db sample_alice_state)))
    /\ users (db st') = users (db sample_alice_state)
    /\ blog_posts (db st') = blog_posts (db sample_alice_state)
    /\ session st' = session sample_alice_state.
Proof.
  apply (comment_is_stored (sample_comment_request "again")
           sample_alice_state 1 sample_alice sample_post); reflexivity.
Defined.

Lemma invalid_post_form_is_not_stored_witness :
  snd (run (create_post (E := sample_externals) sample_blank_title_request)
           sample_admin_state) = sample_admin_state.
Proof.
  apply (invalid_post_form_is_not_stored (E := sample_externals)
           sample_blank_title_request sample_admin_state).
  left. reflexivity.
Defined.

Lemma invalid_registration_is_not_stored_witness :
  run (register (E := sample_externals) sample_bad_email_request)
      sample_anonymous_state
  = (Rendered register_html, [], sample_anonymous_state).
Proof.
  apply (invalid_registration_is_not_stored (E := sample_externals)
           sample_bad_email_request sample_anonymous_state).
  right. right. reflexivity.
Defined.
